(** * Verification of the response-parsing and persistence pipeline of
    [src/frontend/docker_artifacts/app.py].

    Strings are modelled as [String.string] (ASCII characters); the Python
    string methods the code uses ([in], [split], [strip], [lower], [find],
    [replace], [count]) are written out below with their Python semantics on
    that alphabet.  [json.loads]/[json.dumps] belong to the Python standard
    library and are kept abstract (Section variables) where a claim does not
    depend on their internals. *)

From Stdlib Require Import String Ascii List Bool ZArith Lia.
From Stdlib Require Import Numbers.DecimalString.
Import ListNotations.
Open Scope string_scope.
Set Warnings "-register-all,-abstract-large-number".

(* ------------------------------------------------------------------ *)
(** ** Python string primitives *)

Module Py.

(** [str.isspace] restricted to ASCII: \t \n \v \f \r, \x1c-\x1f and space. *)
Definition is_space (c : ascii) : bool :=
  let n := nat_of_ascii c in
  (Nat.leb 9 n && Nat.leb n 13) || (Nat.leb 28 n && Nat.leb n 32).

Definition is_digit (c : ascii) : bool :=
  let n := nat_of_ascii c in Nat.leb 48 n && Nat.leb n 57.

(** [str.lower] on ASCII. *)
Definition lower_char (c : ascii) : ascii :=
  let n := nat_of_ascii c in
  if Nat.leb 65 n && Nat.leb n 90 then ascii_of_nat (n + 32) else c.

Fixpoint lower (s : string) : string :=
  match s with
  | EmptyString => EmptyString
  | String c s' => String (lower_char c) (lower s')
  end.

(** [sub in s] *)
Fixpoint contains (sub s : string) : bool :=
  if prefix sub s then true
  else match s with
       | EmptyString => false
       | String _ s' => contains sub s'
       end.

(** [s.find(c)] for a one-character needle, [None] standing for [-1]. *)
Fixpoint find_char (c : ascii) (s : string) : option nat :=
  match s with
  | EmptyString => None
  | String c' s' =>
      if Ascii.eqb c c' then Some 0
      else option_map S (find_char c s')
  end.

(** [s.rfind(c)] *)
Fixpoint rfind_char (c : ascii) (s : string) : option nat :=
  match s with
  | EmptyString => None
  | String c' s' =>
      match rfind_char c s' with
      | Some i => Some (S i)
      | None => if Ascii.eqb c c' then Some 0 else None
      end
  end.

(** [s.count(c)] *)
Fixpoint count_char (c : ascii) (s : string) : nat :=
  match s with
  | EmptyString => 0
  | String c' s' => (if Ascii.eqb c c' then 1 else 0) + count_char c s'
  end.

(** [s.replace(a, b)] for one-character [a] and [b]. *)
Fixpoint replace_char (a b : ascii) (s : string) : string :=
  match s with
  | EmptyString => EmptyString
  | String c s' => String (if Ascii.eqb a c then b else c) (replace_char a b s')
  end.

Fixpoint lstrip (s : string) : string :=
  match s with
  | String c s' => if is_space c then lstrip s' else s
  | EmptyString => EmptyString
  end.

Definition rev_str (s : string) : string :=
  string_of_list_ascii (List.rev (list_ascii_of_string s)).

(** [s.strip()] *)
Definition strip (s : string) : string := rev_str (lstrip (rev_str (lstrip s))).

(** [s[i:j]] for [0 <= i], [0 <= j] (no negative indices are used). *)
Definition slice (s : string) (i j : nat) : string := substring i (j - i) s.

(** [s.split(sep)] for a non-empty separator: the pieces between
    non-overlapping occurrences, scanning left to right.  [acc] holds the
    reversed characters of the current piece. *)
Fixpoint split_aux (sep : string) (fuel : nat) (s : string) (acc : list ascii)
  : list string :=
  match fuel with
  | O => [string_of_list_ascii (List.rev acc) ++ s]
  | S fuel' =>
      if prefix sep s then
        string_of_list_ascii (List.rev acc)
          :: split_aux sep fuel' (substring (String.length sep)
                                   (String.length s - String.length sep) s) []
      else match s with
           | EmptyString => [string_of_list_ascii (List.rev acc)]
           | String c s' => split_aux sep fuel' s' (c :: acc)
           end
  end.

Definition split (s sep : string) : list string :=
  split_aux sep (S (String.length s)) s [].

(** [l[1]]: the code only takes it after checking [sep in s], so there is
    always a second piece; [""] is returned otherwise. *)
Definition nth1 (l : list string) : string := nth 1 l "".

End Py.

(* ------------------------------------------------------------------ *)
(** ** Language Code Normalizer (app.py, lines 328-391) *)

Module Lang.

(** [get_language_code]; the Python [None] input is not modelled, the
    empty string takes the falsy branch. *)
Definition get_language_code (language_name : string) : string :=
  let normalized_name :=
    if String.eqb language_name "" then "english" else Py.lower language_name in
  let is_in l := existsb (String.eqb normalized_name) l in
  if is_in ["bg"; "bulgarian"] then "bulgarian"
  else if is_in ["en"; "english"] then "english"
  else if is_in ["de"; "german"] then "german"
  else if is_in ["pl"; "polish"] then "polish"
  else if is_in ["cs"; "czech"] then "czech"
  else if is_in ["sk"; "slovak"] then "slovak"
  else if is_in ["uk"; "ukrainian"] then "ukrainian"
  else if is_in ["fi"; "finnish"] then "finnish"
  else "english".

(** Association-list lookup with a default: [dict.get(k, d)]. *)
Fixpoint dict_get (m : list (string * string)) (k d : string) : string :=
  match m with
  | [] => d
  | (k', v) :: m' => if String.eqb k k' then v else dict_get m' k d
  end.

Definition iso_language_map : list (string * string) :=
  [("English", "en"); ("German", "de"); ("Polish", "pl"); ("Czech", "cs");
   ("Slovak", "sk"); ("Ukrainian", "uk"); ("Bulgarian", "bg"); ("Finnish", "fi")].

(** [get_iso_language_code] *)
Definition get_iso_language_code (language_name : string) : string :=
  dict_get iso_language_map language_name "en".

Definition code_map : list (string * string) :=
  [("bg", "Bulgarian"); ("en", "English"); ("de", "German"); ("pl", "Polish");
   ("cs", "Czech"); ("sk", "Slovak"); ("uk", "Ukrainian"); ("fi", "Finnish");
   ("bulgarian", "Bulgarian"); ("english", "English"); ("german", "German");
   ("polish", "Polish"); ("czech", "Czech"); ("slovak", "Slovak");
   ("ukrainian", "Ukrainian"); ("finnish", "Finnish")].

(** [normalize_language_name] *)
Definition normalize_language_name (language_code : string) : string :=
  let normalized :=
    if String.eqb language_code "" then "en" else Py.lower language_code in
  dict_get code_map normalized "Unknown".

(** The eight supported languages by canonical name. *)
Definition languages : list string :=
  ["English"; "German"; "Polish"; "Czech"; "Slovak"; "Ukrainian";
   "Bulgarian"; "Finnish"].

Definition iso_codes : list string :=
  ["en"; "de"; "pl"; "cs"; "sk"; "uk"; "bg"; "fi"].

End Lang.


(* ------------------------------------------------------------------ *)
(** ** Section Extractor and JSON extraction *)

Module Sections.

Definition TS := "## Triage Summary".
Definition FA := "## Final Answer".

Record sections := mk_sections {
  thinking : string;
  reasoning : string;
  conclusion : string;
  final_answer : string
}.

(** [section.split(m)[0].strip()] for the first marker of [ms] found in the
    section, the whole section stripped if none is. *)
Fixpoint cut_at_first (ms : list string) (section : string) : string :=
  match ms with
  | [] => Py.strip section
  | m :: ms' =>
      if Py.contains m section then Py.strip (nth 0 (Py.split section m) "")
      else cut_at_first ms' section
  end.

(** One narrative section of [parse_medreason_response]: present only when
    its marker is in the text, taken from [split(marker)[1]]. *)
Definition narrative (marker : string) (ends : list string) (t : string) : string :=
  if Py.contains marker t then cut_at_first ends (Py.nth1 (Py.split t marker))
  else "".

(** The final-answer section (app.py lines 573-577). *)
Definition final_answer_section (response_text : string) : string :=
  if Py.contains TS response_text then Py.strip (Py.nth1 (Py.split response_text TS))
  else if Py.contains FA response_text then Py.strip (Py.nth1 (Py.split response_text FA))
  else "".

(** [after_marker] of [diagnose_doctor_notes] (app.py lines 1322-1328). *)
Definition after_marker (raw_response : string) : string :=
  if Py.contains TS raw_response then Py.strip (Py.nth1 (Py.split raw_response TS))
  else if Py.contains FA raw_response then Py.strip (Py.nth1 (Py.split raw_response FA))
  else raw_response.

Section WithJson.

(** The JSON values of Python's [json] module and its [loads]/[dumps]:
    [json_loads] is [None] where [json.loads] raises. *)
Variable json : Type.
Variable json_loads : string -> option json.
Variable json_dumps_indent2 : json -> string.

(** [parse_medreason_response] from the computed [response_text] on
    (app.py lines 534-598). *)
Definition parse_sections (response_text : string) : sections :=
  let th := narrative "## Thinking" [FA; TS] response_text in
  let re := narrative "### Reasoning Process" ["---"; "### Conclusion"] response_text in
  let co := narrative "### Conclusion" [FA; TS] response_text in
  let fa := final_answer_section response_text in
  let fa' :=
    if Py.contains "{" fa && Py.contains "}" fa then
      match Py.find_char "{" fa, Py.rfind_char "}" fa with
      | Some start, Some r =>
          let json_str := Py.slice fa start (S r) in
          match json_loads json_str with
          | Some json_data => json_dumps_indent2 json_data
          | None => fa
          end
      | _, _ => fa
      end
    else fa in
  mk_sections th re co fa'.

End WithJson.

(** The brace-balanced scan of [diagnose_doctor_notes] (app.py lines
    1331-1342) over [after_marker[start:]]: [i] is the index of the current
    character; the result is [i + 1] at the [}] that brings [open_count]
    back to zero. *)
Fixpoint scan_close (s : string) (open_count : Z) (i : nat) : option nat :=
  match s with
  | EmptyString => None
  | String c s' =>
      if Ascii.eqb c "{" then scan_close s' (open_count + 1)%Z (S i)
      else if Ascii.eqb c "}" then
        let oc := (open_count - 1)%Z in
        if Z.eqb oc 0 then Some (S i) else scan_close s' oc (S i)
      else scan_close s' open_count (S i)
  end.

Inductive span_result :=
| NoJson            (* "No JSON found in response" *)
| NoValidJson       (* "No valid JSON found in response" *)
| Span (json_str : string).

Definition find_json_span (a : string) : span_result :=
  if Py.contains "{" a && Py.contains "}" a then
    match Py.find_char "{" a with
    | Some start =>
        match scan_close (substring start (String.length a - start) a) 0 0 with
        | Some k => Span (Py.slice a start (start + k))
        | None => NoValidJson
        end
    | None => NoJson
    end
  else NoJson.

Section WithJson2.
Variable json : Type.
Variable json_loads : string -> option json.
Variable json_dumps_indent2 : json -> string.

(** [json_output] of [diagnose_doctor_notes] for a model response. *)
Definition json_output (raw_response : string) : string :=
  match find_json_span (after_marker raw_response) with
  | Span json_str =>
      match json_loads json_str with
      | Some json_data => json_dumps_indent2 json_data
      | None => "Invalid JSON format"
      end
  | NoValidJson => "No valid JSON found in response"
  | NoJson => "No JSON found in response"
  end.
End WithJson2.

(** Brace depth of the first [n] characters of [s] (count of [{] minus
    count of [}]), independent of the scan above. *)
Definition depth_prefix (s : string) (n : nat) : Z :=
  (Z.of_nat (Py.count_char "{" (substring 0 n s))
   - Z.of_nat (Py.count_char "}" (substring 0 n s)))%Z.

(** A brace-balanced object: opens with [{], its depth stays positive on
    every proper non-empty prefix and is zero at its end. *)
Definition balanced_object (obj : string) : Prop :=
  String.get 0 obj = Some "{"%char /\
  (forall n, 0 < n < String.length obj -> (0 < depth_prefix obj n)%Z) /\
  depth_prefix obj (String.length obj) = 0%Z.

End Sections.


(* ------------------------------------------------------------------ *)
(** ** [datetime.strptime] for the two formats the code uses

    CPython's [_strptime] turns the format into a regular expression
    (each whitespace run becoming [\s+]), takes [re.match] on the data,
    raises [ValueError] when the match does not reach the end of the data,
    and then builds the date, raising [ValueError] for an impossible one.
    The directives used here are
      [%Y = \d\d\d\d], [%m = 1[0-2]|0[1-9]|[1-9]],
      [%d = 3[0-1]|[1-2]\d|0[1-9]|[1-9]| [1-9]],
      [%H = 2[0-3]|[0-1]\d|\d], [%M = [0-5]\d|\d], [%S = 6[0-1]|[0-5]\d|\d].
    The matcher below lists the matches in the order the backtracking
    regex engine tries them; [re.match] returns the first. *)

Module Strptime.

Inductive cls := CDigit | CRange (lo hi : ascii) | CChar (c : ascii).

Definition cls_ok (k : cls) (c : ascii) : bool :=
  match k with
  | CDigit => Py.is_digit c
  | CRange lo hi => Nat.leb (nat_of_ascii lo) (nat_of_ascii c)
                    && Nat.leb (nat_of_ascii c) (nat_of_ascii hi)
  | CChar c' => Ascii.eqb c' c
  end.

(** A literal character, a capturing group of alternatives, or [\s+]. *)
Inductive tok := TLit (c : ascii) | TGroup (alts : list (list cls)) | TSpaces.

Fixpoint match_alt (alt : list cls) (s : string) : option (string * string) :=
  match alt with
  | [] => Some (EmptyString, s)
  | k :: alt' =>
      match s with
      | EmptyString => None
      | String c s' =>
          if cls_ok k c then
            match match_alt alt' s' with
            | Some (m, r) => Some (String c m, r)
            | None => None
            end
          else None
      end
  end.

Fixpoint leading_spaces (s : string) : nat :=
  match s with
  | String c s' => if Py.is_space c then S (leading_spaces s') else 0
  | EmptyString => 0
  end.

Fixpoint sdrop (k : nat) (s : string) : string :=
  match k, s with
  | O, _ => s
  | S k', String _ s' => sdrop k' s'
  | S _, EmptyString => EmptyString
  end.

(** The matches of one token: captured groups and remaining input. *)
Definition match_tok (t : tok) (s : string) : list (list string * string) :=
  match t with
  | TLit c =>
      match s with
      | String c' s' => if Ascii.eqb c c' then [([], s')] else []
      | EmptyString => []
      end
  | TGroup alts =>
      flat_map (fun alt => match match_alt alt s with
                           | Some (m, r) => [([m], r)]
                           | None => []
                           end) alts
  | TSpaces =>
      (* greedy: the longest run first *)
      map (fun k => ([], sdrop k s)) (List.rev (seq 1 (leading_spaces s)))
  end.

Fixpoint match_seq (ts : list tok) (s : string) : list (list string * string) :=
  match ts with
  | [] => [([], s)]
  | t :: ts' =>
      flat_map (fun (gr : list string * string) =>
                  map (fun (gr' : list string * string) => ((fst gr ++ fst gr')%list, snd gr'))
                      (match_seq ts' (snd gr)))
               (match_tok t s)
  end.

Definition dig := CDigit.
Definition rng a b := CRange a b.
Definition ch c := CChar c.

Definition Y := TGroup [[dig; dig; dig; dig]].
Definition m := TGroup [[ch "1"; rng "0" "2"]; [ch "0"; rng "1" "9"]; [rng "1" "9"]].
Definition d := TGroup [[ch "3"; rng "0" "1"]; [rng "1" "2"; dig]; [ch "0"; rng "1" "9"];
                        [rng "1" "9"]; [ch " "; rng "1" "9"]].
Definition H := TGroup [[ch "2"; rng "0" "3"]; [rng "0" "1"; dig]; [dig]].
Definition M := TGroup [[rng "0" "5"; dig]; [dig]].
Definition S := TGroup [[ch "6"; rng "0" "1"]; [rng "0" "5"; dig]; [dig]].

(** ["%Y-%m-%d"] and ["%Y-%m-%d %H:%M:%S"] *)
Definition fmt_date : list tok := [Y; TLit "-"; m; TLit "-"; d].
Definition fmt_datetime : list tok :=
  [Y; TLit "-"; m; TLit "-"; d; TSpaces; H; TLit ":"; M; TLit ":"; S].

(** [re.match] followed by the "unconverted data remains" check. *)
Definition regex_groups (fmt : list tok) (s : string) : option (list string) :=
  match match_seq fmt s with
  | (g, r) :: _ => if String.eqb r EmptyString then Some g else None
  | [] => None
  end.

(** [int()] of a matched group (digits, possibly after one space). *)
Fixpoint int_aux (s : string) (acc : nat) : nat :=
  match s with
  | EmptyString => acc
  | String c s' =>
      if Py.is_digit c then int_aux s' (10 * acc + (nat_of_ascii c - 48))
      else int_aux s' acc
  end.
Definition int (s : string) : nat := int_aux s 0.

Definition is_leap (y : nat) : bool :=
  (Nat.eqb (y mod 4) 0 && negb (Nat.eqb (y mod 100) 0)) || Nat.eqb (y mod 400) 0.

Definition days_in_month (y mo : nat) : nat :=
  match mo with
  | 2 => if is_leap y then 29 else 28
  | 4 | 6 | 9 | 11 => 30
  | _ => 31
  end.

(** [datetime.date(y, mo, dd)] accepts the date. *)
Definition valid_date (y mo dd : nat) : bool :=
  Nat.leb 1 y && Nat.leb y 9999 && Nat.leb 1 mo && Nat.leb mo 12
  && Nat.leb 1 dd && Nat.leb dd (days_in_month y mo).

(** [datetime.strptime(s, "%Y-%m-%d")] returns (true) or raises
    [ValueError] (false). *)
Definition strptime_date (s : string) : bool :=
  match regex_groups fmt_date s with
  | Some [yy; mo; dd] => valid_date (int yy) (int mo) (int dd)
  | _ => false
  end.

(** [datetime.strptime(s, "%Y-%m-%d %H:%M:%S")]; seconds 60 and 61 pass
    the regex and are refused by the [datetime] constructor. *)
Definition strptime_datetime (s : string) : bool :=
  match regex_groups fmt_datetime s with
  | Some [yy; mo; dd; hh; mi; ss] =>
      valid_date (int yy) (int mo) (int dd)
      && Nat.ltb (int hh) 24 && Nat.ltb (int mi) 60 && Nat.ltb (int ss) 60
  | _ => false
  end.

End Strptime.


(* ------------------------------------------------------------------ *)
(** ** Field Validator and Persistence Adapter: [save_diagnosis_to_db]
    (app.py lines 219-318) *)

Module Save.

(** Values produced by [json.loads] (integers only for numbers). *)
Inductive jvalue :=
| JNull
| JBool (b : bool)
| JNum (z : Z)
| JStr (s : string)
| JArr (l : list jvalue)
| JObj (kv : list (string * jvalue)).

(** Python truthiness. *)
Definition truthy (v : jvalue) : bool :=
  match v with
  | JNull => false
  | JBool b => b
  | JNum z => negb (Z.eqb z 0)
  | JStr s => negb (String.eqb s "")
  | JArr l => negb (List.length l =? 0)%nat
  | JObj kv => negb (List.length kv =? 0)%nat
  end.

(** [dict.get(k, default)] on the dict built by [json.loads] from the
    pairs [kv] (a repeated key keeps its last value). *)
Definition jget (kv : list (string * jvalue)) (k : string) (default : jvalue) : jvalue :=
  match List.find (fun p => String.eqb (fst p) k) (List.rev kv) with
  | Some (_, v) => v
  | None => default
  end.

(** Python exceptions reaching the handlers of [save_diagnosis_to_db]. *)
Inductive exc :=
| JSONDecodeError (msg : string)
| RecursionError (msg : string)
| MySQLError (msg : string)
| TypeError (msg : string)
| AttributeError (msg : string).

Definition exc_msg (e : exc) : string :=
  match e with
  | JSONDecodeError m | RecursionError m | MySQLError m
  | TypeError m | AttributeError m => m
  end.

Definition NA := "N/A".

(** The [date_of_birth] block (lines 238-247): the cleaned value, ["N/A"]
    standing for the sentinel, or the exception [strptime] raises on a
    non-string argument (only [ValueError] is caught there). *)
Definition clean_date_of_birth (v : jvalue) : exc + string :=
  if negb (truthy v) then inr NA
  else match v with
       | JStr s =>
           if String.eqb s NA then inr NA
           else if Strptime.strptime_date s then inr s else inr NA
       | _ => inl (TypeError "strptime() argument 1 must be str")
       end.

(** The string branch of the [visit_time] block (lines 255-265). *)
Definition normalize_visit_time_str (visit_time : string) : string :=
  let vt := if Py.contains "T" visit_time then Py.replace_char "T" " " visit_time
            else visit_time in
  let vt := if Nat.eqb (String.length (Py.strip vt)) 10
               && Nat.eqb (Py.count_char "-" vt) 2
            then vt ++ " 00:00:00" else vt in
  if Strptime.strptime_datetime vt then vt else NA.

(** The [visit_time] block (lines 249-265): [in] on a number or boolean
    raises [TypeError]; on a list or dict it succeeds and the following
    [.replace]/[.strip] raises [AttributeError]. *)
Definition clean_visit_time (v : jvalue) : exc + string :=
  if negb (truthy v) then inr NA
  else match v with
       | JStr s => if String.eqb s NA then inr NA else inr (normalize_visit_time_str s)
       | JNum _ | JBool _ | JNull => inl (TypeError "argument is not iterable")
       | JArr _ | JObj _ => inl (AttributeError "object has no attribute 'strip'")
       end.

(** A column value passed to [cursor.execute]: [None] or a Python value. *)
Inductive sqlval := SqlNull | SqlVal (v : jvalue).

Definition columns : list string :=
  ["patient_name"; "date_of_birth"; "visit_time"; "severity";
   "primary_diagnosis"; "secondary_diagnoses"; "recommended_tests";
   "recommended_treatment"; "follow_up"].

(** Storage operations issued, in order. *)
Inductive op :=
| OpConnect
| OpExecute (table : string) (cols : list string) (row : list sqlval)
| OpCommit
| OpClose.

(** The database server's answers: [Some msg] is a [pymysql.MySQLError]
    (connectivity at [connect], constraint and data errors at [execute],
    [commit]); [db_lastrowid] is [cursor.lastrowid]. *)
Record db := mk_db {
  db_connect : option string;
  db_execute : list sqlval -> option string;
  db_commit : option string;
  db_lastrowid : Z
}.

(** A state-and-exception monad: the trace of storage operations is the
    state, a raised exception aborts the rest of the block. *)
Inductive result (A : Type) := Ok (a : A) | Raise (e : exc).
Arguments Ok {A} a.
Arguments Raise {A} e.

Definition M (A : Type) := list op -> list op * result A.

Definition ret {A} (a : A) : M A := fun t => (t, Ok a).
Definition raise {A} (e : exc) : M A := fun t => (t, Raise e).
Definition bind {A B} (x : M A) (f : A -> M B) : M B :=
  fun t => match x t with
           | (t', Ok a) => f a t'
           | (t', Raise e) => (t', Raise e)
           end.
Definition emit (o : op) : M unit := fun t => ((t ++ [o])%list, Ok tt).
Definition lift {A} (r : exc + A) : M A :=
  match r with inl e => raise e | inr a => ret a end.
(** [try: x except: h] for a handler catching every exception. *)
Definition try_except {A} (x : M A) (h : exc -> A) : M A :=
  fun t => match x t with
           | (t', Raise e) => (t', Ok (h e))
           | r => r
           end.

Notation "a <- x ;; k" := (bind x (fun a => k)) (at level 61, x at next level, right associativity).

Definition db_step (o : op) (answer : option string) : M unit :=
  _ <- emit o ;;
  match answer with None => ret tt | Some msg => raise (MySQLError msg) end.

Definition Z_to_string (z : Z) : string := NilEmpty.string_of_int (Z.to_int z).

Definition sql_date (x : string) : sqlval := if String.eqb x NA then SqlNull else SqlVal (JStr x).

Section WithLoads.

(** [json.loads]: the decoded value or the exception it raises. *)
Variable json_loads : string -> result jvalue.

(** The body of the outer [try] block. *)
Definition save_body (d : db) (json_data : string) : M (bool * string) :=
  match json_loads json_data with
  | Raise (JSONDecodeError _) => ret (false, "Failed to parse JSON data.")
  | Raise e => raise e
  | Ok diagnosis_data =>
      _ <- db_step OpConnect (db_connect d) ;;
      kv <- (match diagnosis_data with
             | JObj kv => ret kv
             | _ => raise (AttributeError "object has no attribute 'get'")
             end) ;;
      let patient_name := jget kv "patient_name" (JStr NA) in
      date_of_birth <- lift (clean_date_of_birth (jget kv "date_of_birth" (JStr NA))) ;;
      visit_time <- lift (clean_visit_time (jget kv "visit_time" (JStr NA))) ;;
      let severity := jget kv "severity" (JStr NA) in
      let primary_diagnosis := jget kv "primary_diagnosis" (JStr NA) in
      let secondary_diagnoses := jget kv "secondary_diagnoses" (JStr NA) in
      let recommended_tests := jget kv "recommended_tests" (JStr NA) in
      let recommended_treatment := jget kv "recommended_treatment" (JStr NA) in
      let follow_up := jget kv "follow_up" (JStr NA) in
      let row := [SqlVal patient_name; sql_date date_of_birth; sql_date visit_time;
                  SqlVal severity; SqlVal primary_diagnosis;
                  SqlVal secondary_diagnoses; SqlVal recommended_tests;
                  SqlVal recommended_treatment; SqlVal follow_up] in
      _ <- db_step (OpExecute "triage" columns row) (db_execute d row) ;;
      _ <- db_step OpCommit (db_commit d) ;;
      _ <- emit OpClose ;;
      ret (true, "Diagnosis saved successfully to database with ID: "
                   ++ Z_to_string (db_lastrowid d))
  end.

Definition save_handler (e : exc) : bool * string :=
  match e with
  | MySQLError msg => (false, "Database error: " ++ msg)
  | e => (false, "Error: " ++ exc_msg e)
  end.

Definition is_extractor_sentinel (json_data : string) : bool :=
  String.eqb json_data "" || String.eqb json_data "No JSON found in response"
  || String.eqb json_data "Invalid JSON format".

(** [save_diagnosis_to_db(json_data)] *)
Definition save_diagnosis_to_db (d : db) (json_data : string) : M (bool * string) :=
  if is_extractor_sentinel json_data then ret (false, "No valid data to save to database.")
  else try_except (save_body d json_data) save_handler.

End WithLoads.

End Save.

(* ------------------------------------------------------------------ *)
(** ** Shapes of the values the claims speak about *)

Module Shapes.

(** Change of brace depth caused by one character. *)
Definition delta (c : ascii) : Z :=
  ((if Ascii.eqb "{" c then 1 else 0) - (if Ascii.eqb "}" c then 1 else 0))%Z.

Definition dv (c : ascii) : nat := nat_of_ascii c - 48.
Definition num2 (a b : ascii) : nat := 10 * dv a + dv b.
Definition num4 (a b c d : ascii) : nat := 1000 * dv a + 100 * dv b + 10 * dv c + dv d.

(** [YYYY-MM-DD] exactly: ten characters, digits and two hyphens, naming a
    date of the proleptic Gregorian calendar between years 1 and 9999. *)
Definition strict_date (s : string) : bool :=
  match s with
  | String y1 (String y2 (String y3 (String y4 (String h1 (String m1 (String m2
      (String h2 (String d1 (String d2 EmptyString))))))))) =>
      forallb Py.is_digit [y1; y2; y3; y4; m1; m2; d1; d2]
      && Ascii.eqb h1 "-" && Ascii.eqb h2 "-"
      && Strptime.valid_date (num4 y1 y2 y3 y4) (num2 m1 m2) (num2 d1 d2)
  | _ => false
  end.

(** [HH:MM:SS] exactly, hours below 24, minutes and seconds below 60. *)
Definition strict_time (s : string) : bool :=
  match s with
  | String h1 (String h2 (String c1 (String i1 (String i2 (String c2 (String s1
      (String s2 EmptyString))))))) =>
      forallb Py.is_digit [h1; h2; i1; i2; s1; s2]
      && Ascii.eqb c1 ":" && Ascii.eqb c2 ":"
      && Nat.ltb (num2 h1 h2) 24 && Nat.ltb (num2 i1 i2) 60 && Nat.ltb (num2 s1 s2) 60
  | _ => false
  end.

(** [YYYY-MM-DD HH:MM:SS] exactly. *)
Definition strict_datetime (s : string) : bool :=
  strict_date (substring 0 10 s) && String.eqb (substring 10 1 s) " "
  && strict_time (substring 11 8 s) && Nat.eqb (String.length s) 19.

(** The [visit_time] rule as the specification words it: [T] to space,
    date-only (ten characters, two hyphens) completed with midnight, then a
    strict [YYYY-MM-DD HH:MM:SS] match, the sentinel otherwise. *)
Definition visit_time_as_specified (visit_time : string) : string :=
  let vt := Py.replace_char "T" " " visit_time in
  let vt := if Nat.eqb (String.length vt) 10 && Nat.eqb (Py.count_char "-" vt) 2
            then vt ++ " 00:00:00" else vt in
  if strict_datetime vt then vt else Save.NA.

End Shapes.

(* ------------------------------------------------------------------ *)
(** ** Sample inputs: a decoder and database servers *)

Module Samples.
Import Save.

(** The record [json.loads] decodes from [sample_json]; it carries a
    [medical_reasoning] entry as the model output does. *)
Definition sample_kv : list (string * jvalue) :=
  [("patient_name", JStr "Ana Ruiz"); ("date_of_birth", JStr "1980-07-15");
   ("visit_time", JStr "2025-04-23T14:30:00"); ("severity", JStr "High");
   ("primary_diagnosis", JStr "Pneumonia"); ("secondary_diagnoses", JStr "None");
   ("recommended_tests", JStr "Chest X-ray"); ("recommended_treatment", JStr "Antibiotics");
   ("follow_up", JStr "48h"); ("medical_reasoning", JStr "Fever and crackles")].

Definition sample_json := "{patient_name: Ana Ruiz, ...}".

(** A decoder that accepts [sample_json] only. *)
Definition sample_loads (s : string) : result jvalue :=
  if String.eqb s sample_json then Ok (JObj sample_kv)
  else Raise (JSONDecodeError "Expecting value").

(** A server that accepts everything. *)
Definition db_up : db := mk_db None (fun _ => None) None 42.
(** A server that cannot be reached. *)
Definition db_down : db := mk_db (Some "Can't connect to MySQL server") (fun _ => None) None 0.
(** A server that refuses every insert. *)
Definition db_refusing : db :=
  mk_db None (fun _ => Some "Incorrect date value") None 0.
(** A server that accepts the insert and fails at commit. *)
Definition db_commit_lost : db := mk_db None (fun _ => None) (Some "Lost connection") 0.

End Samples.

(* ------------------------------------------------------------------ *)
(** ** The service wrappers and Gradio callbacks (app.py lines 54-154,
    320-326, 393-514, 677-700, 990-1022, 1046-1136, 1206-1343)

    Python values decoded from JSON are [Save.jvalue]s.  The HTTP services
    (MedReason, Whisper, NLLB, MedGemma), the files and the process
    environment are Section variables: each call of [requests.post] is a
    variable applied to what the code puts in the request, so a result
    that does not depend on the variable is one computed without a
    request. *)

Module Ui.
Import Save.

(** Python exceptions raised outside [save_diagnosis_to_db]; [EIOError]
    stands for [OSError] from [open] and [requests.RequestException]. *)
Inductive err :=
| ETypeError (msg : string)
| EAttributeError (msg : string)
| EKeyError (msg : string)
| EIndexError (msg : string)
| EUnboundLocalError (msg : string)
| EJSONDecodeError (msg : string)
| EIOError (msg : string).

Definition err_msg (e : err) : string :=
  match e with
  | ETypeError m | EAttributeError m | EKeyError m | EIndexError m
  | EUnboundLocalError m | EJSONDecodeError m | EIOError m => m
  end.

Definition ebind {A B} (x : err + A) (f : A -> err + B) : err + B :=
  match x with inl e => inl e | inr a => f a end.

Notation "a <-? x ;; k" := (ebind x (fun a => k))
  (at level 61, x at next level, right associativity).

(** [k in d] for a dict decoded from the pairs [kv]. *)
Definition has_key (kv : list (string * jvalue)) (k : string) : bool :=
  existsb (fun p => String.eqb (fst p) k) kv.

(** [k in v] for a string [k]: a key of a dict, an element of a list, a
    substring of a string; other values are not iterable. *)
Definition py_in (k : string) (v : jvalue) : err + bool :=
  match v with
  | JObj kv => inr (has_key kv k)
  | JArr l => inr (existsb (fun x => match x with JStr s => String.eqb s k | _ => false end) l)
  | JStr s => inr (Py.contains k s)
  | JNull => inl (ETypeError "argument of type 'NoneType' is not iterable")
  | JNum _ => inl (ETypeError "argument of type 'int' is not iterable")
  | JBool _ => inl (ETypeError "argument of type 'bool' is not iterable")
  end.

(** [v[k]] for a string [k]. *)
Definition getitem (v : jvalue) (k : string) : err + jvalue :=
  match v with
  | JObj kv => if has_key kv k then inr (jget kv k JNull) else inl (EKeyError k)
  | JArr _ => inl (ETypeError "list indices must be integers or slices, not str")
  | JStr _ => inl (ETypeError "string indices must be integers")
  | JNull => inl (ETypeError "'NoneType' object is not subscriptable")
  | JNum _ => inl (ETypeError "'int' object is not subscriptable")
  | JBool _ => inl (ETypeError "'bool' object is not subscriptable")
  end.

(** [v[0]] *)
Definition getitem0 (v : jvalue) : err + jvalue :=
  match v with
  | JArr (x :: _) => inr x
  | JArr [] => inl (EIndexError "list index out of range")
  | JStr (String c _) => inr (JStr (String c EmptyString))
  | JStr EmptyString => inl (EIndexError "string index out of range")
  | JObj _ => inl (EKeyError "0")
  | JNull => inl (ETypeError "'NoneType' object is not subscriptable")
  | JNum _ => inl (ETypeError "'int' object is not subscriptable")
  | JBool _ => inl (ETypeError "'bool' object is not subscriptable")
  end.

(** [len(v) > 0] *)
Definition len_gt0 (v : jvalue) : err + bool :=
  match v with
  | JArr l => inr (negb (List.length l =? 0)%nat)
  | JStr s => inr (negb (String.length s =? 0)%nat)
  | JObj kv => inr (negb (List.length kv =? 0)%nat)
  | JNull => inl (ETypeError "object of type 'NoneType' has no len()")
  | JNum _ => inl (ETypeError "object of type 'int' has no len()")
  | JBool _ => inl (ETypeError "object of type 'bool' has no len()")
  end.

(** A string method [meth] called on [v]. *)
Definition as_str (v : jvalue) (meth : string) : err + string :=
  match v with
  | JStr s => inr s
  | _ => inl (EAttributeError ("object has no attribute '" ++ meth ++ "'"))
  end.

(** [d[k] = x] *)
Definition setitem (v : jvalue) (k : string) (x : jvalue) : err + jvalue :=
  match v with
  | JObj kv =>
      inr (JObj (if has_key kv k
                 then map (fun p => if String.eqb (fst p) k then (k, x) else p) kv
                 else (kv ++ [(k, x)])%list))
  | JArr _ => inl (ETypeError "list indices must be integers or slices, not str")
  | JStr _ => inl (ETypeError "'str' object does not support item assignment")
  | JNull => inl (ETypeError "'NoneType' object does not support item assignment")
  | JNum _ => inl (ETypeError "'int' object does not support item assignment")
  | JBool _ => inl (ETypeError "'bool' object does not support item assignment")
  end.

(** The items of a dict decoded from [kv], in order: a repeated key keeps
    its first position and its last value. *)
Fixpoint dict_insert (d : list (string * jvalue)) (k : string) (v : jvalue)
  : list (string * jvalue) :=
  match d with
  | [] => [(k, v)]
  | (k', v') :: d' => if String.eqb k k' then (k, v) :: d' else (k', v') :: dict_insert d' k v
  end.

Definition dict_items (kv : list (string * jvalue)) : list (string * jvalue) :=
  fold_left (fun d p => dict_insert d (fst p) (snd p)) kv [].

(** [str.capitalize] on ASCII. *)
Definition upper_char (c : ascii) : ascii :=
  let n := nat_of_ascii c in
  if Nat.leb 97 n && Nat.leb n 122 then ascii_of_nat (n - 32) else c.

Definition capitalize (s : string) : string :=
  match s with
  | EmptyString => EmptyString
  | String c s' => String (upper_char c) (Py.lower s')
  end.

(** The answer to [requests.post]: the status code, [response.json()]
    (the decoded value or the exception it raises) and [response.text];
    or the exception [requests.post] (or [open] before it) raises. *)
Inductive http_outcome :=
| HttpResp (status_code : Z) (body : err + jvalue) (text : string)
| HttpFail (e : err).

(* ---------------- health checks ---------------- *)

(** The JSON bodies [check_model] and [check_medgemma_model] send. *)
Inductive payload := PMedReason | PWhisper | PNllb | PMedGemma.

Section Health.
(** [requests.post(url, headers={Authorization: Bearer token}, data=payload)] *)
Variable health_post : string -> string -> payload -> http_outcome.

(** [check_medgemma_model] (lines 108-153) *)
Definition check_medgemma_model (url token : string) : bool * string :=
  match health_post (url ++ "/v1/chat/completions") token PMedGemma with
  | HttpResp code _ _ =>
      if Z.eqb code 200 then (true, "MedGemma API is available and responding")
      else (false, "MedGemma API returned status code: " ++ Z_to_string code)
  | HttpFail e => (false, "MedGemma API error: " ++ err_msg e)
  end.

(** [check_model] (lines 54-101): an unknown [model_type] leaves [payload]
    unbound, and [json.dumps(payload)] raises before any request. *)
Definition check_model (model_type url token : string) : bool * string :=
  let post p :=
    match health_post url token p with
    | HttpResp code _ _ =>
        if String.eqb model_type "whisper" && Z.eqb code 400 then
          (true, capitalize model_type ++ " API is available (expected 400 error for test)")
        else if Z.eqb code 200 then
          (true, capitalize model_type ++ " API is available and responding")
        else (false, capitalize model_type ++ " API returned status code: " ++ Z_to_string code)
    | HttpFail e => (false, capitalize model_type ++ " API error: " ++ err_msg e)
    end in
  if String.eqb model_type "medreason" then post PMedReason
  else if String.eqb model_type "whisper" then post PWhisper
  else if String.eqb model_type "nllb" then post PNllb
  else if String.eqb model_type "medgemma" then check_medgemma_model url token
  else (false, capitalize model_type ++ " API error: "
               ++ "cannot access local variable 'payload' where it is not associated with a value").

End Health.

(* ---------------- configuration file ---------------- *)

(** [api_config.json]: absent, or present with the result of reading it. *)
Inductive file_state := Missing | Present (contents : err + string).

Section Config.
(** [os.getenv(name, "")] *)
Variable getenv : string -> string.
(** [json.load] on the file's text and [json.dump] of a value. *)
Variable json_load : string -> err + jvalue.
Variable json_dump : jvalue -> string.

Definition service_entry (url token : string) : jvalue :=
  JObj [("url", JStr url); ("token", JStr token)].

(** [DEFAULTS] (lines 28-45) *)
Definition DEFAULTS : list (string * jvalue) :=
  [("medreason", service_entry (getenv "MEDREASON_URL") (getenv "MEDREASON_TOKEN"));
   ("whisper", service_entry (getenv "WHISPER_URL") (getenv "WHISPER_TOKEN"));
   ("nllb", service_entry (getenv "NLLB_URL") (getenv "NLLB_TOKEN"));
   ("medgemma", service_entry (getenv "MEDGEMMA_URL") (getenv "MEDGEMMA_TOKEN"))].

(** The loop of [load_config]: [for service in DEFAULTS: if service not in
    loaded_config: loaded_config[service] = DEFAULTS[service]]. *)
Fixpoint merge_defaults (services : list (string * jvalue)) (loaded_config : jvalue)
  : err + jvalue :=
  match services with
  | [] => inr loaded_config
  | (service, dflt) :: rest =>
      present <-? py_in service loaded_config ;;
      if present then merge_defaults rest loaded_config
      else loaded' <-? setitem loaded_config service dflt ;; merge_defaults rest loaded'
  end.

(** [load_config] (lines 686-700) *)
Definition load_config (fs : file_state) : jvalue :=
  match fs with
  | Missing => JObj DEFAULTS
  | Present (inl _) => JObj DEFAULTS
  | Present (inr text) =>
      match json_load text with
      | inl _ => JObj DEFAULTS
      | inr loaded_config =>
          match merge_defaults DEFAULTS loaded_config with
          | inr c => c
          | inl _ => JObj DEFAULTS
          end
      end
  end.

(** [save_config] (lines 677-684): [write_error] is the exception [open]
    raises, if any. *)
Definition save_config (fs : file_state) (write_error : option err) (config : jvalue)
  : file_state * string :=
  match write_error with
  | None => (Present (inr (json_dump config)), "Configuration saved successfully")
  | Some e => (fs, "Failed to save configuration: " ++ err_msg e)
  end.

(** The dict [save_config_and_check] builds (lines 1011-1016). *)
Definition config_of (medreason_url medreason_token whisper_url whisper_token nllb_url
  nllb_token medgemma_url medgemma_token : string) : jvalue :=
  JObj [("medreason", service_entry medreason_url medreason_token);
        ("whisper", service_entry whisper_url whisper_token);
        ("nllb", service_entry nllb_url nllb_token);
        ("medgemma", service_entry medgemma_url medgemma_token)].

End Config.

(* ---------------- NLLB translation ---------------- *)

Section Nllb.
(** The NLLB request for [text], [source_language], [target_language]. *)
Variable nllb_post : string -> string -> string -> http_outcome.
(** [str(result)] *)
Variable py_str : jvalue -> string.

(** [value[0]] of the first list value of the fallback loop that yields a
    translation (lines 488-495). *)
Fixpoint scan_items (items : list (string * jvalue)) : option jvalue :=
  match items with
  | [] => None
  | (_, value) :: rest =>
      match value with
      | JArr (x :: _) =>
          match x with
          | JStr s => Some (JStr s)
          | JObj kv =>
              if has_key kv "translated_text" then Some (jget kv "translated_text" JNull)
              else if has_key kv "translation" then Some (jget kv "translation" JNull)
              else scan_items rest
          | _ => scan_items rest
          end
      | _ => scan_items rest
      end
  end.

(** [x["translated_text"]] if [x] is a dict with that key, else [x]. *)
Definition first_translated (x : jvalue) : err + jvalue :=
  match x with
  | JObj kv => if has_key kv "translated_text" then getitem x "translated_text" else inr x
  | _ => inr x
  end.

(** The extraction of [translate_text] from [result = response.json()]
    (lines 475-501). *)
Definition extract_translation (result : jvalue) : err + jvalue :=
  p <-? py_in "predictions" result ;;
  if p then (ps <-? getitem result "predictions" ;; x <-? getitem0 ps ;; first_translated x)
  else
    o <-? py_in "outputs" result ;;
    if o then (os <-? getitem result "outputs" ;; x <-? getitem0 os ;; first_translated x)
    else
      match result with
      | JObj kv =>
          match scan_items (dict_items kv) with
          | Some v => inr v
          | None => if has_key kv "translated_text" then getitem result "translated_text"
                    else inr (JStr (py_str result))
          end
      | _ => inl (EAttributeError "object has no attribute 'items'")
      end.

(** [translate_text] (lines 448-513) *)
Definition translate_text (text source_lang target_lang : string) : jvalue :=
  match nllb_post text source_lang target_lang with
  | HttpResp code body _ =>
      if Z.eqb code 200 then
        match ebind body extract_translation with
        | inr v => v
        | inl e => JStr ("Error: " ++ err_msg e)
        end
      else JStr ("Translation failed: API returned status " ++ Z_to_string code)
  | HttpFail e => JStr ("Error: " ++ err_msg e)
  end.

(** [translate_text_only] (lines 1101-1129); on strings nothing in its
    [try] block raises ([translate_text] catches every exception). *)
Definition translate_text_only (transcription patient_language doctor_language : string)
  : jvalue * string :=
  if String.eqb (Py.strip transcription) "" then
    (JStr "", "No text to translate. Please transcribe audio first.")
  else if String.eqb (Py.lower doctor_language) (Py.lower patient_language) then
    (JStr transcription,
     "Translation skipped (both languages are " ++ patient_language ++ ").")
  else
    let source_lang_code := Lang.get_language_code patient_language in
    let target_lang_code := Lang.get_language_code doctor_language in
    (translate_text transcription source_lang_code target_lang_code,
     "Translated from " ++ patient_language ++ " to " ++ doctor_language ++ ".").

End Nllb.

(** The language names the NLLB service is called with. *)
Definition nllb_names : list string :=
  ["bulgarian"; "english"; "german"; "polish"; "czech"; "slovak"; "ukrainian"; "finnish"].

(* ---------------- Whisper transcription ---------------- *)

Section Whisper.
(** The Whisper request for an audio file, with the [language] form field
    when one is sent. *)
Variable whisper_post : string -> option string -> http_outcome.

(** [normalize_language_name(detected_language)] on a decoded value: a
    falsy value takes the ["en"] default, a non-string raises at [.lower()]. *)
Definition normalize_detected (v : jvalue) : err + string :=
  if negb (truthy v) then inr (Lang.normalize_language_name "")
  else match v with
       | JStr s => inr (Lang.normalize_language_name s)
       | _ => inl (EAttributeError "object has no attribute 'lower'")
       end.

(** [transcribe_audio] (lines 393-446): the detected language and
    [result.get('text', '')] or the error text. *)
Definition transcribe_audio (audio_path : string) (auto_detect : bool)
  (expected_language : string) : string * jvalue :=
  let language :=
    if auto_detect then None else Some (Lang.get_iso_language_code expected_language) in
  match whisper_post audio_path language with
  | HttpResp code body text =>
      if Z.eqb code 200 then
        match body with
        | inr (JObj kv) =>
            let transcription := jget kv "text" (JStr "") in
            let detected_language := jget kv "language" (JStr "Unknown") in
            match normalize_detected detected_language with
            | inr normalized_language => (normalized_language, transcription)
            | inl e => ("Unknown", JStr ("Error: " ++ err_msg e))
            end
        | inr _ => ("Unknown", JStr ("Error: " ++ "object has no attribute 'get'"))
        | inl e => ("Unknown", JStr ("Error: " ++ err_msg e))
        end
      else ("Unknown", JStr ("Transcription failed: API returned status " ++ Z_to_string code
                             ++ ", message: " ++ text))
  | HttpFail e => ("Unknown", JStr ("Error: " ++ err_msg e))
  end.

(** [audio_file if audio_mode == "Upload Audio File" else audio_recorder];
    a missing recording ([None]) is the empty path. *)
Definition audio_path_of (audio_mode audio_file audio_recorder : string) : string :=
  if String.eqb audio_mode "Upload Audio File" then audio_file else audio_recorder.

(** [transcribe_doctor_notes] (lines 1206-1226) *)
Definition transcribe_doctor_notes (audio_mode audio_file audio_recorder : string)
  : string * string :=
  let audio_path := audio_path_of audio_mode audio_file audio_recorder in
  if String.eqb audio_path "" then
    ("", "No audio provided. Please upload or record audio first.")
  else
    let (_, transcription) := transcribe_audio audio_path false "English" in
    if negb (truthy transcription) then
      ("", "Failed to transcribe audio. Please try again with a clearer recording.")
    else match transcription with
         | JStr s =>
             if String.eqb (Py.strip s) "" then
               ("", "Failed to transcribe audio. Please try again with a clearer recording.")
             else (s, "Transcription complete.")
         | _ => ("", "Error: " ++ "object has no attribute 'strip'")
         end.

(** [transcribe_audio_only] (lines 1046-1098) *)
Definition transcribe_audio_only (audio_mode audio_file audio_recorder patient_language : string)
  : string * string :=
  let audio_path := audio_path_of audio_mode audio_file audio_recorder in
  if String.eqb audio_path "" then
    ("", "No audio provided. Please upload or record audio first.")
  else
    let iso_lang_code := Lang.get_iso_language_code patient_language in
    match whisper_post audio_path (Some iso_lang_code) with
    | HttpResp code body _ =>
        if Z.eqb code 200 then
          match body with
          | inr (JObj kv) =>
              let transcription := jget kv "text" (JStr "") in
              if negb (truthy transcription) then
                ("", "No transcription returned. Please try again with a clearer recording.")
              else match transcription with
                   | JStr s =>
                       if String.eqb (Py.strip s) "" then
                         ("", "No transcription returned. Please try again with a clearer recording.")
                       else (s, "Transcribed in " ++ patient_language ++ ".")
                   | _ => ("", "Error: " ++ "object has no attribute 'strip'")
                   end
          | inr _ => ("", "Error: " ++ "object has no attribute 'get'")
          | inl e => ("", "Error: " ++ err_msg e)
          end
        else ("", "Transcription failed: API returned status " ++ Z_to_string code)
    | HttpFail e => ("", "Error: " ++ err_msg e)
    end.

End Whisper.

(* ---------------- MedReason diagnosis ---------------- *)

Section MedReason.
(** The MedReason request; its prompt embeds the transcription. *)
Variable medreason_post : string -> http_outcome.
Variable json_loads : string -> result jvalue.
Variable json_dumps_indent2 : jvalue -> string.

(** [json.loads] under a bare [except]. *)
Definition loads_opt (s : string) : option jvalue :=
  match json_loads s with Ok v => Some v | Raise _ => None end.

(** The text of a completion in the formats the code knows
    (lines 1297-1310, also lines 521-533). *)
Definition response_text_of (result : jvalue) : err + jvalue :=
  c <-? py_in "choices" result ;;
  nonempty <-? (if c then (ch <-? getitem result "choices" ;; len_gt0 ch) else inr false) ;;
  if nonempty then
    ch <-? getitem result "choices" ;;
    c0 <-? getitem0 ch ;;
    t <-? py_in "text" c0 ;;
    if t then getitem c0 "text"
    else
      m <-? py_in "message" c0 ;;
      if m then (msg <-? getitem c0 "message" ;; getitem msg "content")
      else inr (JStr (json_dumps_indent2 c0))
  else
    r <-? py_in "response" result ;;
    if r then getitem result "response"
    else
      g <-? py_in "generations" result ;;
      if g then (gs <-? getitem result "generations" ;; g0 <-? getitem0 gs ;; getitem g0 "text")
      else inr (JStr (json_dumps_indent2 result)).

(** The [try] block extracting JSON from [raw_response] (lines 1313-1353). *)
Definition json_extraction (raw_response : jvalue) : err + string :=
  ts <-? py_in Sections.TS raw_response ;;
  after_marker <-?
    (if ts then (s <-? as_str raw_response "split" ;;
                 inr (JStr (Py.strip (Py.nth1 (Py.split s Sections.TS)))))
     else
       fa <-? py_in Sections.FA raw_response ;;
       if fa then (s <-? as_str raw_response "split" ;;
                   inr (JStr (Py.strip (Py.nth1 (Py.split s Sections.FA)))))
       else inr raw_response) ;;
  o <-? py_in "{" after_marker ;;
  c <-? (if o then py_in "}" after_marker else inr false) ;;
  if c then
    a <-? as_str after_marker "find" ;;
    match Py.find_char "{" a with
    | Some start =>
        match Sections.scan_close (substring start (String.length a - start) a) 0 0 with
        | Some k =>
            let json_str := Py.slice a start (start + k) in
            inr (match loads_opt json_str with
                 | Some json_data => json_dumps_indent2 json_data
                 | None => "Invalid JSON format"
                 end)
        | None => inr "No valid JSON found in response"
        end
    | None => inr "No JSON found in response"  (* unreachable: "{" is in the text *)
    end
  else inr "No JSON found in response".

Definition json_output_of (raw_response : jvalue) : string :=
  match json_extraction raw_response with
  | inr o => o
  | inl e => "Error extracting JSON: " ++ err_msg e
  end.

(** [diagnose_doctor_notes] (lines 1228-1363): the raw response, the JSON
    output and the status. *)
Definition diagnose_doctor_notes (transcription : string) : jvalue * string * string :=
  if String.eqb transcription "" || String.eqb (Py.strip transcription) "" then
    (JStr "", "", "No transcription to analyze. Please transcribe audio first.")
  else
    match medreason_post transcription with
    | HttpResp code body _ =>
        if Z.eqb code 200 then
          match ebind body response_text_of with
          | inr raw_response =>
              (raw_response, json_output_of raw_response, "Analysis complete.")
          | inl e => (JStr "", "Error: " ++ err_msg e, "Error: " ++ err_msg e)
          end
        else (JStr "", "Error: MedReason API returned status code " ++ Z_to_string code,
              "Error: API returned status " ++ Z_to_string code)
    | HttpFail e => (JStr "", "Error: " ++ err_msg e, "Error: " ++ err_msg e)
    end.

(** [save_diagnosis_to_db_button] (lines 320-326) *)
Definition save_diagnosis_to_db_button (d : db) (json_data : string) : M string :=
  if String.eqb json_data "" then ret "No data to save. Please run a diagnosis first."
  else p <- save_diagnosis_to_db json_loads d json_data ;; ret (snd p).

End MedReason.

End Ui.

(** Services, environment and files used to exercise the interface code. *)
Module UiSamples.
Import Save Ui.

(** [os.getenv] with no variable set. *)
Definition getenv_unset (_ : string) : string := "".

(** An NLLB endpoint answering [{predictions: []}]. *)
Definition nllb_empty_predictions (_ _ _ : string) : http_outcome :=
  HttpResp 200 (inr (JObj [("predictions", JArr [])])) "".

(** [str] of a value, unused on the paths exercised. *)
Definition py_str_blank (_ : jvalue) : string := "".

(** A Whisper endpoint that is overloaded. *)
Definition whisper_busy (_ : string) (_ : option string) : http_outcome :=
  HttpResp 503 (inl (EJSONDecodeError "Expecting value")) "busy".

(** A Whisper endpoint that transcribes German speech. *)
Definition whisper_german (_ : string) (_ : option string) : http_outcome :=
  HttpResp 200 (inr (JObj [("text", JStr "Guten Tag"); ("language", JStr "de")])) "".

(** A health endpoint where every service answers 200. *)
Definition health_up (_ _ : string) (_ : payload) : http_outcome :=
  HttpResp 200 (inr JNull) "".

(** A health endpoint where only Whisper answers, with 400. *)
Definition health_whisper_400 (_ _ : string) (p : payload) : http_outcome :=
  match p with
  | PWhisper => HttpResp 400 (inr JNull) "bad request"
  | _ => HttpFail (EIOError "Connection refused")
  end.

(** A configuration file holding only a [nllb] entry. *)
Definition config_nllb_text := "{nllb: {url: http://nllb, token: t}}".
Definition load_nllb_only (_ : string) : err + jvalue :=
  inr (JObj [("nllb", service_entry "http://nllb" "t")]).

(** A configuration file holding a JSON string. *)
Definition load_string (_ : string) : err + jvalue :=
  inr (JStr "medreason whisper nllb").

(** A configuration file that is not JSON. *)
Definition load_invalid (_ : string) : err + jvalue :=
  inl (EJSONDecodeError "Expecting value").

(** The configuration the settings tab saves in the examples. *)
Definition sample_config : jvalue :=
  config_of "http://mr" "a" "http://wh" "b" "http://nl" "c" "http://mg" "d".

(** [json.dump] and [json.load] that agree on [sample_config]. *)
Definition dump_sample (_ : jvalue) : string := "{...}".
Definition load_sample (s : string) : err + jvalue :=
  if String.eqb s "{...}" then inr sample_config else inl (EJSONDecodeError "Expecting value").

(** A MedReason endpoint answering in the completions format. *)
Definition medreason_ok (_ : string) : http_outcome :=
  HttpResp 200 (inr (JObj [("choices", JArr [JObj [("text", JStr "## Final Answer {}")]])])) "".

End UiSamples.

(* ================================================================== *)
(** * Properties *)

(** Evaluations of the embedded functions on sample inputs. *)

Example lower_ex : Py.lower "GeRmAn" = "german". Proof. reflexivity. Qed.
Example split_ex : Py.split "a##b##c" "##" = ["a"; "b"; "c"]. Proof. reflexivity. Qed.
Example strip_ex : Py.strip "  ab c
 " = "ab c". Proof. reflexivity. Qed.
Example nlang_ex : Lang.normalize_language_name "" = "English". Proof. reflexivity. Qed.
Example fjs_ex :
  Sections.find_json_span "x {a: {b: 1}} then } stray" = Sections.Span "{a: {b: 1}}".
Proof. reflexivity. Qed.
Example sp1 : Strptime.strptime_datetime "2025-04-23 14:30:00" = true. Proof. reflexivity. Qed.
Example sp2 : Strptime.strptime_datetime "2025-4-3 1:2:3" = true. Proof. reflexivity. Qed.
Example sp3 : Strptime.strptime_datetime "2025-02-29 00:00:00" = false. Proof. reflexivity. Qed.
Example sp4 : Strptime.strptime_date "2024-02-29" = true. Proof. reflexivity. Qed.
Example sp5 : Strptime.strptime_date "2024/02/29" = false. Proof. reflexivity. Qed.
Example sp6 : Strptime.strptime_date "2024-1-1" = true. Proof. reflexivity. Qed.
Example sp7 : Strptime.strptime_date "2024-01-123" = false. Proof. reflexivity. Qed.
Example sp8 : Strptime.strptime_datetime "2025-04-23  14:30:60" = false. Proof. reflexivity. Qed.

(* ------------------------------------------------------------------ *)
(** ** Language Code Normalizer *)

Module LangFacts.
Import Lang.

Lemma dict_get_notin (m : list (string * string)) (k d : string) :
  ~ In k (map fst m) -> dict_get m k d = d.
Proof.
  induction m as [|[k' v] m IH]; simpl; intros Hn; [reflexivity|].
  destruct (String.eqb_spec k k') as [->|Hne]; [exfalso; tauto|].
  apply IH; tauto.
Qed.

Lemma lower_length (s : string) : String.length (Py.lower s) = String.length s.
Proof. induction s; simpl; congruence. Qed.

Lemma lower_empty_iff (s : string) : Py.lower s = "" <-> s = "".
Proof. destruct s; simpl; split; congruence. Qed.

Lemma eqb_empty_lower (s t : string) :
  Py.lower s = Py.lower t -> String.eqb s "" = String.eqb t "".
Proof.
  intros H.
  destruct (String.eqb_spec s ""), (String.eqb_spec t ""); subst; auto;
    exfalso.
  - apply n. apply lower_empty_iff. rewrite <- H. reflexivity.
  - apply n. apply lower_empty_iff. rewrite H. reflexivity.
Qed.

Lemma languages_lower_inj (s t : string) :
  In s languages -> In t languages -> Py.lower s = Py.lower t -> s = t.
Proof.
  unfold languages; simpl.
  intros Hs Ht H.
  destruct Hs as [<-|[<-|[<-|[<-|[<-|[<-|[<-|[<-|[]]]]]]]]];
    destruct Ht as [<-|[<-|[<-|[<-|[<-|[<-|[<-|[<-|[]]]]]]]]];
    solve [reflexivity | discriminate H].
Qed.

End LangFacts.

(** C6 (counterexample): [normalize_language_name ""] is ["English"]
    although [""] is not a recognised code or name: the empty input takes
    the explicit [else "en"] default rather than the "Unknown" sentinel. *)
Lemma display_name_empty_defaults_english :
  ~ (forall s : string,
        ~ In (Py.lower s) (map fst Lang.code_map) ->
        Lang.normalize_language_name s = "Unknown").
Proof.
  intros H. specialize (H "").
  assert (Hn : ~ In (Py.lower "") (map fst Lang.code_map))
    by (simpl; intuition discriminate).
  specialize (H Hn). vm_compute in H. discriminate H.
Qed.

(** C6 (amended): [get_iso_language_code] maps every string other than
    the eight canonical names to ["en"]; [normalize_language_name] maps
    every non-empty string whose lower-case form is not one of its sixteen
    keys to ["Unknown"], and the empty string to ["English"]; the two
    fallbacks differ. *)
Theorem language_fallbacks (s t : string)
  (Hs : ~ In s Lang.languages)
  (Ht : t <> "")
  (Ht' : ~ In (Py.lower t) (map fst Lang.code_map)) :
  Lang.get_iso_language_code s = "en" /\
  Lang.normalize_language_name t = "Unknown" /\
  Lang.normalize_language_name "" = "English" /\
  Lang.get_iso_language_code s <> Lang.normalize_language_name t.
Proof.
  assert (Hiso : Lang.get_iso_language_code s = "en").
  { unfold Lang.get_iso_language_code. apply LangFacts.dict_get_notin. exact Hs. }
  assert (Hnl : Lang.normalize_language_name t = "Unknown").
  { unfold Lang.normalize_language_name.
    destruct (String.eqb_spec t "") as [E|_]; [contradiction|].
    apply LangFacts.dict_get_notin. exact Ht'. }
  rewrite Hiso, Hnl. split; [reflexivity|split; [reflexivity|split; [reflexivity|discriminate]]].
Qed.

Lemma language_fallbacks_witness :
  ~ In "english" Lang.languages /\ "xx" <> "" /\
  ~ In (Py.lower "xx") (map fst Lang.code_map) /\
  Lang.get_iso_language_code "english" = "en" /\
  Lang.normalize_language_name "xx" = "Unknown".
Proof.
  assert (H1 : ~ In "english" Lang.languages) by (simpl; intuition discriminate).
  assert (H2 : "xx" <> "") by discriminate.
  assert (H3 : ~ In (Py.lower "xx") (map fst Lang.code_map)) by (simpl; intuition discriminate).
  destruct (language_fallbacks "english" "xx" H1 H2 H3) as [A [B _]].
  repeat split; assumption.
Defined.

(** C7 (counterexample): [get_iso_language_code] is case-sensitive:
    ["german"] and ["German"] have the same lower-case form but map to
    ["en"] and ["de"]. *)
Lemma iso_code_not_case_insensitive :
  ~ (forall l s : string, In l Lang.languages -> Py.lower s = Py.lower l ->
       Lang.get_iso_language_code s = Lang.get_iso_language_code l).
Proof.
  intros H. specialize (H "German" "german").
  assert (Hin : In "German" Lang.languages) by (simpl; tauto).
  specialize (H Hin eq_refl). vm_compute in H. discriminate H.
Qed.

(** C7 (amended): [get_language_code] and [normalize_language_name] give
    the same result on any two strings with the same lower-case form;
    [get_iso_language_code] matches the canonical names exactly, so any
    other casing of a supported name yields the fallback ["en"]. *)
Theorem language_lookup_casing (s t : string) (Hlow : Py.lower s = Py.lower t) :
  Lang.get_language_code s = Lang.get_language_code t /\
  Lang.normalize_language_name s = Lang.normalize_language_name t /\
  (In t Lang.languages -> s <> t -> Lang.get_iso_language_code s = "en").
Proof.
  pose proof (LangFacts.eqb_empty_lower s t Hlow) as He.
  split; [|split].
  - unfold Lang.get_language_code. rewrite He, Hlow. reflexivity.
  - unfold Lang.normalize_language_name. rewrite He, Hlow. reflexivity.
  - intros Ht Hne. unfold Lang.get_iso_language_code.
    apply LangFacts.dict_get_notin. simpl map. intros Hs.
    apply Hne. apply LangFacts.languages_lower_inj; assumption.
Qed.

Lemma language_lookup_casing_witness :
  Py.lower "gErMaN" = Py.lower "German" /\
  Lang.get_language_code "gErMaN" = "german" /\
  Lang.normalize_language_name "gErMaN" = "German" /\
  Lang.get_iso_language_code "gErMaN" = "en".
Proof.
  assert (Hl : Py.lower "gErMaN" = Py.lower "German") by reflexivity.
  destruct (language_lookup_casing "gErMaN" "German" Hl) as [A [B C]].
  split; [exact Hl|]. split; [rewrite A; reflexivity|].
  split; [rewrite B; reflexivity|].
  apply C; [simpl; tauto | discriminate].
Defined.

(* ------------------------------------------------------------------ *)
(** ** Structured-Record Extractor: the brace-balanced scan *)

Module StrFacts.

Lemma substring_app_l (p s : string) (n : nat) :
  substring (String.length p) n (p ++ s) = substring 0 n s.
Proof. induction p; simpl; auto. Qed.

Lemma substring_0_app (a b : string) :
  substring 0 (String.length a) (a ++ b) = a.
Proof. induction a; simpl; [destruct b; reflexivity|congruence]. Qed.

Lemma substring_0_length (a : string) : substring 0 (String.length a) a = a.
Proof. induction a; simpl; congruence. Qed.

Lemma find_char_app (c : ascii) (p s : string) :
  Py.count_char c p = 0 ->
  Py.find_char c (p ++ String c s) = Some (String.length p).
Proof.
  induction p as [|c' p IH]; simpl; intros H.
  - rewrite Ascii.eqb_refl. reflexivity.
  - destruct (Ascii.eqb c c'); [discriminate|]. rewrite IH; auto.
Qed.

Lemma prefix_single (c : ascii) (s : string) :
  prefix (String c EmptyString) (String c s) = true.
Proof.
  simpl. destruct (ascii_dec c c); [|contradiction]. destruct s; reflexivity.
Qed.

Lemma contains_of_count (c : ascii) (s : string) :
  0 < Py.count_char c s -> Py.contains (String c EmptyString) s = true.
Proof.
  induction s as [|c' s IH]; intros H; [simpl in H; lia|].
  cbn [Py.count_char] in H.
  change (Py.contains (String c EmptyString) (String c' s)) with
    (if prefix (String c EmptyString) (String c' s) then true
     else Py.contains (String c EmptyString) s).
  destruct (Ascii.eqb_spec c c') as [<-|Hne].
  - rewrite prefix_single. reflexivity.
  - simpl prefix. destruct (ascii_dec c c'); [contradiction|]. apply IH. exact H.
Qed.

Lemma count_char_app (c : ascii) (a b : string) :
  Py.count_char c (a ++ b) = Py.count_char c a + Py.count_char c b.
Proof. induction a; simpl; [|rewrite IHa]; lia. Qed.

Lemma length_app (a b : string) :
  String.length (a ++ b) = String.length a + String.length b.
Proof. induction a; simpl; auto. Qed.

Lemma app_assoc_str (a b c : string) : (a ++ b) ++ c = a ++ (b ++ c).
Proof. induction a; simpl; congruence. Qed.

Lemma app_empty_r (a : string) : a ++ EmptyString = a.
Proof. induction a; simpl; congruence. Qed.

End StrFacts.

Module ScanFacts.
Import Sections Shapes.

Lemma depth_prefix_cons (c : ascii) (s : string) (n : nat) :
  depth_prefix (String c s) (S n) = (delta c + depth_prefix s n)%Z.
Proof.
  unfold depth_prefix, delta. cbn [substring Py.count_char].
  destruct (Ascii.eqb "{" c), (Ascii.eqb "}" c); lia.
Qed.

Lemma depth_prefix_0 (s : string) : depth_prefix s 0 = 0%Z.
Proof. destruct s; reflexivity. Qed.

(** The scan stops exactly at the end of [body] when the depth, started at
    [dep], stays positive strictly inside [body] and is zero at its end. *)
Lemma scan_close_balanced (body post : string) :
  forall (dep : Z) (i : nat),
  (0 < dep)%Z ->
  (forall n, n < String.length body -> (0 < dep + depth_prefix body n)%Z) ->
  (dep + depth_prefix body (String.length body))%Z = 0%Z ->
  scan_close (body ++ post) dep i = Some (i + String.length body).
Proof.
  induction body as [|c b IH]; intros dep i H0 Hpos Hend.
  - simpl in Hend. rewrite depth_prefix_0 in Hend. lia.
  - change (String.length (String c b)) with (S (String.length b)) in *.
    rewrite depth_prefix_cons in Hend.
    assert (Hstep : forall n, n < String.length b ->
               (0 < dep + delta c + depth_prefix b n)%Z).
    { intros n Hn. specialize (Hpos (S n) ltac:(lia)).
      rewrite depth_prefix_cons in Hpos. lia. }
    change (scan_close (String c (b ++ post)) dep i =
            Some (i + S (String.length b))).
    cbn [scan_close].
    unfold delta in Hend, Hstep.
    destruct (Ascii.eqb_spec c "{") as [->|Hc1].
    + change (Ascii.eqb "}" "{") with false in Hend, Hstep.
      rewrite Ascii.eqb_refl in Hend, Hstep.
      rewrite (IH (dep + 1)%Z (S i)); [f_equal; lia|lia| |lia].
      intros n Hn. specialize (Hstep n Hn). lia.
    + assert (E1 : Ascii.eqb "{" c = false)
        by (apply Ascii.eqb_neq; congruence).
      rewrite E1 in Hend, Hstep.
      destruct (Ascii.eqb_spec c "}") as [->|Hc2].
      * rewrite Ascii.eqb_refl in Hend, Hstep.
        destruct (Z.eqb_spec (dep - 1) 0) as [Hz|Hz].
        -- destruct b as [|c' b'].
           ++ f_equal. simpl. lia.
           ++ exfalso. specialize (Hstep 0 ltac:(simpl; lia)).
              rewrite depth_prefix_0 in Hstep. lia.
        -- rewrite (IH (dep - 1)%Z (S i)); [f_equal; lia| | |lia].
           { destruct b as [|c' b']; [cbn [String.length] in Hend; rewrite depth_prefix_0 in Hend; lia|].
             specialize (Hstep 0 ltac:(simpl; lia)). rewrite depth_prefix_0 in Hstep. lia. }
           intros n Hn. specialize (Hstep n Hn). lia.
      * assert (E2 : Ascii.eqb "}" c = false)
          by (apply Ascii.eqb_neq; congruence).
        rewrite E2 in Hend, Hstep.
        rewrite (IH dep (S i)); [f_equal; lia|lia| |lia].
        intros n Hn. specialize (Hstep n Hn). lia.
Qed.

End ScanFacts.

(** C1: when the section is [pre ++ obj ++ post] with no [{] in [pre] and
    [obj] brace-balanced, the extractor of [diagnose_doctor_notes] returns
    exactly [obj], whatever [post] holds (stray [}] included). *)
Theorem brace_balanced_extraction (pre obj post : string)
  (Hpre : Py.count_char "{" pre = 0)
  (Hobj : Sections.balanced_object obj) :
  Sections.find_json_span (pre ++ obj ++ post) = Sections.Span obj.
Proof.
  destruct Hobj as [Hget [Hpos Hend]].
  destruct obj as [|c body]; [discriminate Hget|].
  simpl in Hget. injection Hget as ->.
  assert (Hcl : 0 < Py.count_char "}" (String "{" body)).
  { unfold Sections.depth_prefix in Hend.
    rewrite StrFacts.substring_0_length in Hend.
    cbn [Py.count_char] in Hend |- *. rewrite Ascii.eqb_refl in Hend.
    change (Ascii.eqb "}" "{") with false in Hend |- *. lia. }
  unfold Sections.find_json_span.
  rewrite (StrFacts.contains_of_count "{"%char).
  2:{ rewrite !StrFacts.count_char_app. cbn [Py.count_char]. rewrite Ascii.eqb_refl. lia. }
  rewrite (StrFacts.contains_of_count "}"%char).
  2:{ rewrite !StrFacts.count_char_app. lia. }
  simpl andb.
  change (String "{" body ++ post) with (String "{" (body ++ post)).
  rewrite StrFacts.find_char_app by exact Hpre.
  rewrite StrFacts.length_app.
  replace (String.length pre + String.length (String "{" (body ++ post)) - String.length pre)
    with (String.length (String "{" (body ++ post))) by lia.
  rewrite StrFacts.substring_app_l.
  rewrite StrFacts.substring_0_length.
  cbn [Sections.scan_close]. rewrite Ascii.eqb_refl.
  rewrite (ScanFacts.scan_close_balanced body post (0 + 1)%Z 1).
  - unfold Py.slice.
    replace (String.length pre + (1 + String.length body) - String.length pre)
      with (String.length (String "{" body)) by (simpl; lia).
    rewrite StrFacts.substring_app_l.
    change (String "{" (body ++ post)) with (String "{" body ++ post).
    rewrite StrFacts.substring_0_app. reflexivity.
  - lia.
  - intros n Hn. specialize (Hpos (S n) ltac:(simpl; lia)).
    rewrite ScanFacts.depth_prefix_cons in Hpos. unfold Shapes.delta in Hpos.
    rewrite Ascii.eqb_refl in Hpos. change (Ascii.eqb "}" "{") with false in Hpos. lia.
  - change (String.length (String "{" body)) with (S (String.length body)) in Hend.
    rewrite ScanFacts.depth_prefix_cons in Hend. unfold Shapes.delta in Hend.
    rewrite Ascii.eqb_refl in Hend. change (Ascii.eqb "}" "{") with false in Hend. lia.
Qed.

Lemma brace_balanced_extraction_witness :
  Sections.find_json_span ("Result: " ++ "{a: {b: 1}}" ++ " (see note })")
  = Sections.Span "{a: {b: 1}}".
Proof.
  apply brace_balanced_extraction.
  - reflexivity.
  - split; [reflexivity|]. split; [|reflexivity].
    intros n Hn. simpl in Hn.
    do 11 (destruct n as [|n]; [lia || (vm_compute; reflexivity)|]). lia.
Defined.

(* ------------------------------------------------------------------ *)
(** ** Section Extractor: the final-answer section *)

Module SplitFacts.

Lemma prefix_app (sep s : string) : prefix sep (sep ++ s) = true.
Proof.
  induction sep as [|c sep IH]; simpl; [destruct s; reflexivity|].
  destruct (ascii_dec c c); [exact IH|contradiction].
Qed.

Lemma contains_cons_eq (sub : string) (c : ascii) (x : string) :
  Py.contains sub (String c x)
  = if prefix sub (String c x) then true else Py.contains sub x.
Proof. reflexivity. Qed.

Lemma contains_app (sub p s : string) :
  prefix sub s = true -> Py.contains sub (p ++ s) = true.
Proof.
  intros H. induction p as [|c p IH].
  - change (EmptyString ++ s) with s.
    destruct s as [|c' s']; cbn [Py.contains]; rewrite H; reflexivity.
  - change (String c p ++ s) with (String c (p ++ s)).
    rewrite contains_cons_eq, IH. destruct (prefix sub (String c (p ++ s))); reflexivity.
Qed.

(** Scanning over a stretch in which no occurrence of [sep] starts. *)
Lemma split_aux_skip (sep p s : string) :
  forall acc fuel,
  (forall k, k < String.length p -> prefix sep (Strptime.sdrop k (p ++ s)) = false) ->
  String.length p <= fuel ->
  Py.split_aux sep fuel (p ++ s) acc
  = Py.split_aux sep (fuel - String.length p) s
      (List.rev (list_ascii_of_string p) ++ acc).
Proof.
  induction p as [|c p IH]; intros acc fuel Hno Hf.
  - simpl. rewrite Nat.sub_0_r. reflexivity.
  - destruct fuel as [|fuel]; [simpl in Hf; lia|].
    change (String c p ++ s) with (String c (p ++ s)).
    cbn [Py.split_aux].
    assert (H0 : prefix sep (String c (p ++ s)) = false)
      by exact (Hno 0 ltac:(simpl; lia)).
    rewrite H0, IH.
    + simpl. rewrite <- app_assoc. reflexivity.
    + intros k Hk. apply (Hno (S k)). simpl. lia.
    + simpl in Hf. lia.
Qed.

Lemma split_aux_sep (sep s : string) (acc : list ascii) (fuel : nat) :
  Py.split_aux sep (S fuel) (sep ++ s) acc
  = string_of_list_ascii (List.rev acc) :: Py.split_aux sep fuel s [].
Proof.
  cbn [Py.split_aux]. rewrite prefix_app.
  rewrite StrFacts.length_app.
  replace (String.length sep + String.length s - String.length sep)
    with (String.length s) by lia.
  rewrite StrFacts.substring_app_l, StrFacts.substring_0_length. reflexivity.
Qed.

Lemma split_aux_end (sep : string) (acc : list ascii) (fuel : nat) :
  sep <> "" ->
  Py.split_aux sep fuel "" acc = [string_of_list_ascii (List.rev acc)].
Proof.
  intros Hs. destruct fuel; cbn [Py.split_aux].
  - rewrite StrFacts.app_empty_r. reflexivity.
  - destruct sep; [contradiction|reflexivity].
Qed.

Lemma piece_rev (s : string) :
  string_of_list_ascii (List.rev (List.rev (list_ascii_of_string s) ++ [])) = s.
Proof.
  rewrite app_nil_r, rev_involutive. apply string_of_list_ascii_of_string.
Qed.

(** The second piece of [text.split(sep)] when [text] is
    [pre ++ sep ++ mid ++ rest], [sep] first occurs after [pre], does not
    occur inside [mid], and [rest] is empty or starts with [sep]. *)
Lemma nth1_split (sep pre mid rest : string) :
  sep <> "" ->
  (forall k, k < String.length pre ->
     prefix sep (Strptime.sdrop k (pre ++ sep ++ mid ++ rest)) = false) ->
  (forall k, k < String.length mid ->
     prefix sep (Strptime.sdrop k (mid ++ rest)) = false) ->
  rest = "" \/ prefix sep rest = true ->
  Py.nth1 (Py.split (pre ++ sep ++ mid ++ rest) sep) = mid.
Proof.
  intros Hne Hpre Hmid Hrest.
  assert (Hlen : 0 < String.length sep) by (destruct sep; [contradiction|simpl; lia]).
  unfold Py.split. rewrite !StrFacts.length_app.
  rewrite split_aux_skip; [|exact Hpre|lia].
  replace (S (String.length pre + (String.length sep + (String.length mid + String.length rest)))
           - String.length pre)
    with (S (String.length sep + String.length mid + String.length rest)) by lia.
  rewrite split_aux_sep.
  rewrite split_aux_skip; [|exact Hmid|lia].
  replace (String.length sep + String.length mid + String.length rest - String.length mid)
    with (String.length sep + String.length rest) by lia.
  destruct Hrest as [->|Hr].
  - rewrite split_aux_end by exact Hne. unfold Py.nth1. simpl nth. apply piece_rev.
  - destruct rest as [|c r]; [destruct sep; [contradiction|discriminate]|].
    replace (String.length sep + String.length (String c r))
      with (S (String.length sep + String.length r)) by (simpl; lia).
    cbn [Py.split_aux]. rewrite Hr. unfold Py.nth1. simpl nth. apply piece_rev.
Qed.

End SplitFacts.

(** C5 (counterexample): with ["## Final Answer"] occurring twice, the
    section is the text between the first and the second occurrence, not
    the text after the last one. *)
Lemma final_answer_not_after_last_marker :
  ~ (forall pre post : string,
       Py.contains Sections.FA post = false ->
       Py.contains Sections.TS (pre ++ Sections.FA ++ post) = false ->
       Sections.final_answer_section (pre ++ Sections.FA ++ post) = Py.strip post).
Proof.
  intros H.
  specialize (H "## Final Answer A " " B" eq_refl eq_refl).
  vm_compute in H. discriminate H.
Qed.

(** C5 (amended): the final-answer section is taken after the FIRST
    occurrence of the chosen marker (["## Triage Summary"] whenever it
    occurs, else ["## Final Answer"]) and runs to the next occurrence of
    that marker or to end-of-text, with surrounding whitespace stripped. *)
Theorem final_answer_after_first_marker (marker pre mid rest : string)
  (Hmarker : marker = Sections.TS \/
             (marker = Sections.FA /\
              Py.contains Sections.TS (pre ++ marker ++ mid ++ rest) = false))
  (Hpre : forall k, k < String.length pre ->
            prefix marker (Strptime.sdrop k (pre ++ marker ++ mid ++ rest)) = false)
  (Hmid : forall k, k < String.length mid ->
            prefix marker (Strptime.sdrop k (mid ++ rest)) = false)
  (Hrest : rest = "" \/ prefix marker rest = true) :
  Sections.final_answer_section (pre ++ marker ++ mid ++ rest) = Py.strip mid.
Proof.
  assert (Hne : marker <> "")
    by (destruct Hmarker as [->|[-> _]]; discriminate).
  assert (Hin : Py.contains marker (pre ++ marker ++ mid ++ rest) = true)
    by (apply SplitFacts.contains_app, SplitFacts.prefix_app).
  unfold Sections.final_answer_section.
  destruct Hmarker as [->|[-> Hts]].
  - rewrite Hin. f_equal. apply SplitFacts.nth1_split; assumption.
  - rewrite Hts, Hin. f_equal. apply SplitFacts.nth1_split; assumption.
Qed.

Lemma final_answer_after_first_marker_witness :
  Sections.final_answer_section
    ("Notes " ++ Sections.FA ++ " {x} " ++ Sections.FA ++ " later") = "{x}".
Proof.
  apply (final_answer_after_first_marker Sections.FA "Notes " " {x} "
           (Sections.FA ++ " later")).
  - right. split; reflexivity.
  - intros k Hk. simpl in Hk.
    do 6 (destruct k as [|k]; [reflexivity|]). lia.
  - intros k Hk. simpl in Hk.
    do 5 (destruct k as [|k]; [reflexivity|]). lia.
  - right. reflexivity.
Defined.

(* ------------------------------------------------------------------ *)
(** ** [parse_medreason_response]: reformatting of the final answer *)

Module RfindFacts.

Lemma rfind_none (c : ascii) (s : string) :
  Py.count_char c s = 0 -> Py.rfind_char c s = None.
Proof.
  induction s as [|c' s IH]; simpl; intros H; [reflexivity|].
  destruct (Ascii.eqb c c') eqn:E; [discriminate|]. rewrite IH by exact H. reflexivity.
Qed.

Lemma rfind_char_app (c : ascii) (p s : string) :
  Py.count_char c s = 0 ->
  Py.rfind_char c (p ++ String c s) = Some (String.length p).
Proof.
  intros H. induction p as [|c' p IH]; simpl.
  - rewrite rfind_none by exact H. rewrite Ascii.eqb_refl. reflexivity.
  - rewrite IH. reflexivity.
Qed.

End RfindFacts.

(** C10: when the final-answer section is [pre ++ "{" ++ body ++ "}" ++ post]
    with no [{] in [pre] and no [}] in [post] (so the braces shown are its
    first [{] and last [}]), the returned [final_answer] is the
    re-serialisation of ["{" ++ body ++ "}"] if [json.loads] accepts it,
    and the section unchanged otherwise; [parse_sections] is total. *)
Theorem final_answer_reformatted
  (json : Type) (json_loads : string -> option json) (json_dumps_indent2 : json -> string)
  (text pre body post : string)
  (Hfa : Sections.final_answer_section text = pre ++ "{" ++ body ++ "}" ++ post)
  (Hpre : Py.count_char "{" pre = 0)
  (Hpost : Py.count_char "}" post = 0) :
  Sections.final_answer (Sections.parse_sections json json_loads json_dumps_indent2 text)
  = match json_loads ("{" ++ body ++ "}") with
    | Some j => json_dumps_indent2 j
    | None => Sections.final_answer_section text
    end.
Proof.
  unfold Sections.parse_sections. cbn [Sections.final_answer].
  rewrite Hfa.
  rewrite (StrFacts.contains_of_count "{"%char).
  2:{ rewrite StrFacts.count_char_app. simpl. lia. }
  rewrite (StrFacts.contains_of_count "}"%char).
  2:{ rewrite !StrFacts.count_char_app. simpl. lia. }
  simpl andb.
  change ("{" ++ body ++ "}" ++ post) with (String "{" (body ++ "}" ++ post)).
  rewrite StrFacts.find_char_app by exact Hpre.
  replace (pre ++ String "{" (body ++ "}" ++ post))
    with ((pre ++ String "{" body) ++ String "}" post)
    by (rewrite StrFacts.app_assoc_str; reflexivity).
  rewrite RfindFacts.rfind_char_app by exact Hpost.
  unfold Py.slice.
  rewrite StrFacts.length_app.
  replace (S (String.length pre + String.length (String "{" body)) - String.length pre)
    with (String.length ("{" ++ body ++ "}")) by (rewrite !StrFacts.length_app; cbn [String.length]; lia).
  rewrite StrFacts.app_assoc_str, StrFacts.substring_app_l.
  replace (String "{" body ++ String "}" post) with (("{" ++ body ++ "}") ++ post)
    by (rewrite !StrFacts.app_assoc_str; reflexivity).
  rewrite StrFacts.substring_0_app.
  replace (("{" ++ body ++ "}") ++ post) with ("{" ++ body ++ "}" ++ post)
    by (rewrite !StrFacts.app_assoc_str; reflexivity).
  destruct (json_loads ("{" ++ body ++ "}")); reflexivity.
Qed.

Lemma final_answer_reformatted_witness :
  Sections.final_answer
    (Sections.parse_sections string
       (fun s => if String.eqb s "{a}" then Some "A" else None) (fun j => j)
       "## Triage Summary so {a} ok")
  = "A".
Proof.
  rewrite (final_answer_reformatted string
             (fun s => if String.eqb s "{a}" then Some "A" else None) (fun j => j)
             "## Triage Summary so {a} ok" "so " "a" " ok");
    reflexivity.
Defined.

(* ------------------------------------------------------------------ *)
(** ** [strptime] on strictly shaped dates and times *)

Module StrictFacts.
Import Strptime Shapes.

Lemma digit_cases (c : ascii) :
  Py.is_digit c = true ->
  c = "0"%char \/ c = "1"%char \/ c = "2"%char \/ c = "3"%char \/ c = "4"%char \/
  c = "5"%char \/ c = "6"%char \/ c = "7"%char \/ c = "8"%char \/ c = "9"%char.
Proof.
  destruct c as [[] [] [] [] [] [] [] []]; vm_compute; intros H;
    try discriminate H; tauto.
Qed.

Ltac digit_split c H :=
  destruct (digit_cases c H) as [->|[->|[->|[->|[->|[->|[->|[->|[->| ->]]]]]]]]].

Lemma digit_props (c : ascii) :
  Py.is_digit c = true ->
  Py.is_space c = false /\ Ascii.eqb "-" c = false /\ Ascii.eqb "T" c = false /\
  Ascii.eqb ":" c = false /\ Ascii.eqb " " c = false /\ Py.lower_char c = c.
Proof. intros H. digit_split c H; vm_compute; repeat split. Qed.

Lemma tok_Y (a b c d : ascii) (r : string) :
  Py.is_digit a = true -> Py.is_digit b = true ->
  Py.is_digit c = true -> Py.is_digit d = true ->
  exists l, match_tok Y (String a (String b (String c (String d r))))
            = ([String a (String b (String c (String d EmptyString)))], r) :: l.
Proof.
  intros Ha Hb Hc Hd. exists []. unfold match_tok, Y. cbn [flat_map match_alt cls_ok dig].
  rewrite Ha, Hb, Hc, Hd. reflexivity.
Qed.

Lemma tok_lit (c : ascii) (r : string) :
  exists l, match_tok (TLit c) (String c r) = ([], r) :: l.
Proof. exists []. simpl. rewrite Ascii.eqb_refl. reflexivity. Qed.

Lemma tok_spaces (a : ascii) (r : string) :
  Py.is_digit a = true ->
  exists l, match_tok TSpaces (String " " (String a r)) = ([], String a r) :: l.
Proof.
  intros Ha. destruct (digit_props a Ha) as [Hs _].
  exists []. unfold match_tok. cbn [leading_spaces]. rewrite Hs. reflexivity.
Qed.

Ltac two_digits :=
  intros a b r Ha Hb Hr;
  digit_split a Ha; digit_split b Hb;
  first [ eexists; reflexivity | vm_compute in Hr; discriminate Hr ].

Lemma tok_m : forall (a b : ascii) (r : string),
  Py.is_digit a = true -> Py.is_digit b = true ->
  Nat.leb 1 (num2 a b) && Nat.leb (num2 a b) 12 = true ->
  exists l, match_tok m (String a (String b r)) = ([String a (String b EmptyString)], r) :: l.
Proof. two_digits. Qed.

Lemma tok_d : forall (a b : ascii) (r : string),
  Py.is_digit a = true -> Py.is_digit b = true ->
  Nat.leb 1 (num2 a b) && Nat.leb (num2 a b) 31 = true ->
  exists l, match_tok d (String a (String b r)) = ([String a (String b EmptyString)], r) :: l.
Proof. two_digits. Qed.

Lemma tok_H : forall (a b : ascii) (r : string),
  Py.is_digit a = true -> Py.is_digit b = true ->
  Nat.ltb (num2 a b) 24 = true ->
  exists l, match_tok H (String a (String b r)) = ([String a (String b EmptyString)], r) :: l.
Proof. two_digits. Qed.

Lemma tok_M : forall (a b : ascii) (r : string),
  Py.is_digit a = true -> Py.is_digit b = true ->
  Nat.ltb (num2 a b) 60 = true ->
  exists l, match_tok M (String a (String b r)) = ([String a (String b EmptyString)], r) :: l.
Proof. two_digits. Qed.

Lemma tok_S : forall (a b : ascii) (r : string),
  Py.is_digit a = true -> Py.is_digit b = true ->
  Nat.ltb (num2 a b) 60 = true ->
  exists l, match_tok S (String a (String b r)) = ([String a (String b EmptyString)], r) :: l.
Proof. two_digits. Qed.

Lemma seq_step (t : tok) (ts : list tok) (s : string) (g : list string) (r : string)
  (g' : list string) (r' : string) :
  (exists l, match_tok t s = (g, r) :: l) ->
  (exists l, match_seq ts r = (g', r') :: l) ->
  exists l, match_seq (t :: ts) s = ((g ++ g')%list, r') :: l.
Proof.
  intros [l1 H1] [l2 H2]. cbn [match_seq]. rewrite H1. cbn [flat_map fst snd].
  rewrite H2. cbn [map fst snd]. eexists. reflexivity.
Qed.

Lemma seq_nil (s : string) : exists l, match_seq [] s = ([], s) :: l.
Proof. exists []. reflexivity. Qed.

Lemma int2 (a b : ascii) :
  Py.is_digit a = true -> Py.is_digit b = true ->
  int (String a (String b EmptyString)) = num2 a b.
Proof.
  intros Ha Hb. unfold int, num2, dv. cbn [int_aux]. rewrite Ha, Hb. lia.
Qed.

Lemma int4 (a b c d : ascii) :
  Py.is_digit a = true -> Py.is_digit b = true ->
  Py.is_digit c = true -> Py.is_digit d = true ->
  int (String a (String b (String c (String d EmptyString)))) = num4 a b c d.
Proof.
  intros Ha Hb Hc Hd. unfold int, num4, dv. cbn [int_aux]. rewrite Ha, Hb, Hc, Hd. lia.
Qed.

Lemma days_in_month_le (y mo : nat) : days_in_month y mo <= 31.
Proof.
  unfold days_in_month.
  destruct mo as [|[|[|[|[|[|[|[|[|[|[|[|mo]]]]]]]]]]]]; try lia.
  destruct (is_leap y); lia.
Qed.

End StrictFacts.

Module StrictParse.
Import Strptime Shapes StrictFacts.

Ltac split_bools :=
  repeat match goal with
         | Hb : _ && _ = true |- _ => apply andb_prop in Hb; destruct Hb
         | Hb : Ascii.eqb _ _ = true |- _ => apply Ascii.eqb_eq in Hb; subst
         end.

Lemma strict_date_chars (D : string) :
  strict_date D = true ->
  exists y1 y2 y3 y4 m1 m2 d1 d2,
    D = String y1 (String y2 (String y3 (String y4 (String "-" (String m1 (String m2
          (String "-" (String d1 (String d2 EmptyString))))))))) /\
    forallb Py.is_digit [y1; y2; y3; y4; m1; m2; d1; d2] = true /\
    valid_date (num4 y1 y2 y3 y4) (num2 m1 m2) (num2 d1 d2) = true.
Proof.
  intros HD.
  destruct D as [|y1 [|y2 [|y3 [|y4 [|h1 [|m1 [|m2 [|h2 [|d1 [|d2 [|x D]]]]]]]]]]];
    try discriminate HD.
  cbn [strict_date] in HD.
  apply andb_prop in HD as [HD Hv]. apply andb_prop in HD as [HD Hh2].
  apply andb_prop in HD as [Hdig Hh1].
  apply Ascii.eqb_eq in Hh1, Hh2. subst.
  exists y1, y2, y3, y4, m1, m2, d1, d2. auto.
Qed.

Lemma strict_time_chars (Tm : string) :
  strict_time Tm = true ->
  exists h1 h2 i1 i2 s1 s2,
    Tm = String h1 (String h2 (String ":" (String i1 (String i2 (String ":"
           (String s1 (String s2 EmptyString))))))) /\
    forallb Py.is_digit [h1; h2; i1; i2; s1; s2] = true /\
    Nat.ltb (num2 h1 h2) 24 = true /\ Nat.ltb (num2 i1 i2) 60 = true /\
    Nat.ltb (num2 s1 s2) 60 = true.
Proof.
  intros HT.
  destruct Tm as [|h1 [|h2 [|c1 [|i1 [|i2 [|c2 [|s1 [|s2 [|x Tm]]]]]]]]];
    try discriminate HT.
  cbn [strict_time] in HT.
  apply andb_prop in HT as [HT Hs]. apply andb_prop in HT as [HT Hi].
  apply andb_prop in HT as [HT Hh]. apply andb_prop in HT as [HT Hc2].
  apply andb_prop in HT as [Hdig Hc1].
  apply Ascii.eqb_eq in Hc1, Hc2. subst.
  exists h1, h2, i1, i2, s1, s2. auto 7.
Qed.

Lemma valid_date_parts (y mo dd : nat) :
  valid_date y mo dd = true ->
  Nat.leb 1 mo && Nat.leb mo 12 = true /\ Nat.leb 1 dd && Nat.leb dd 31 = true.
Proof.
  unfold valid_date. intros Hv.
  repeat (apply andb_prop in Hv as [Hv ?]).
  pose proof (days_in_month_le y mo).
  repeat match goal with Hb : Nat.leb _ _ = true |- _ => apply Nat.leb_le in Hb end.
  split; apply andb_true_intro; split; apply Nat.leb_le; lia.
Qed.

(** [datetime.strptime(D + " " + T, "%Y-%m-%d %H:%M:%S")] succeeds on a
    strict date [D] and a strict time [T]. *)
Lemma strptime_datetime_strict (D Tm : string) :
  strict_date D = true -> strict_time Tm = true ->
  strptime_datetime (D ++ " " ++ Tm) = true.
Proof.
  intros HD HT.
  destruct (strict_date_chars D HD) as (y1 & y2 & y3 & y4 & m1 & m2 & d1 & d2 & -> & Hdig & Hv).
  destruct (strict_time_chars Tm HT) as (h1 & h2 & i1 & i2 & s1 & s2 & -> & Hdig' & Hh & Hi & Hs).
  cbn [forallb] in Hdig, Hdig'. rewrite andb_true_r in Hdig, Hdig'. split_bools.
  destruct (valid_date_parts _ _ _ Hv) as [Hm Hd].
  assert (Hre : exists l,
    match_seq fmt_datetime
      (String y1 (String y2 (String y3 (String y4 (String "-" (String m1 (String m2
        (String "-" (String d1 (String d2 EmptyString))))))))) ++ " " ++
       String h1 (String h2 (String ":" (String i1 (String i2 (String ":"
        (String s1 (String s2 EmptyString))))))))
    = (([String y1 (String y2 (String y3 (String y4 EmptyString)))] ++
        ([] ++ ([String m1 (String m2 EmptyString)] ++
        ([] ++ ([String d1 (String d2 EmptyString)] ++
        ([] ++ ([String h1 (String h2 EmptyString)] ++
        ([] ++ ([String i1 (String i2 EmptyString)] ++
        ([] ++ ([String s1 (String s2 EmptyString)] ++ [])))))))))))%list,
       EmptyString) :: l).
  { unfold fmt_datetime. cbn [append].
    eapply seq_step; [apply tok_Y; assumption|].
    eapply seq_step; [apply tok_lit|].
    eapply seq_step; [apply tok_m; assumption|].
    eapply seq_step; [apply tok_lit|].
    eapply seq_step; [apply tok_d; assumption|].
    eapply seq_step; [apply tok_spaces; assumption|].
    eapply seq_step; [apply tok_H; assumption|].
    eapply seq_step; [apply tok_lit|].
    eapply seq_step; [apply tok_M; assumption|].
    eapply seq_step; [apply tok_lit|].
    eapply seq_step; [apply tok_S; assumption|].
    apply seq_nil. }
  destruct Hre as [l Hre].
  unfold strptime_datetime, regex_groups. rewrite Hre. cbn [app String.eqb].
  rewrite !int2, int4 by assumption.
  rewrite Hv, Hh, Hi, Hs. reflexivity.
Qed.

(** [datetime.strptime(D, "%Y-%m-%d")] succeeds on a strict date [D]. *)
Lemma strptime_date_strict (D : string) :
  strict_date D = true -> strptime_date D = true.
Proof.
  intros HD.
  destruct (strict_date_chars D HD) as (y1 & y2 & y3 & y4 & m1 & m2 & d1 & d2 & -> & Hdig & Hv).
  cbn [forallb] in Hdig. rewrite andb_true_r in Hdig. split_bools.
  destruct (valid_date_parts _ _ _ Hv) as [Hm Hd].
  assert (Hre : exists l,
    match_seq fmt_date
      (String y1 (String y2 (String y3 (String y4 (String "-" (String m1 (String m2
        (String "-" (String d1 (String d2 EmptyString))))))))))
    = (([String y1 (String y2 (String y3 (String y4 EmptyString)))] ++
        ([] ++ ([String m1 (String m2 EmptyString)] ++
        ([] ++ ([String d1 (String d2 EmptyString)] ++ [])))))%list,
       EmptyString) :: l).
  { unfold fmt_date.
    eapply seq_step; [apply tok_Y; assumption|].
    eapply seq_step; [apply tok_lit|].
    eapply seq_step; [apply tok_m; assumption|].
    eapply seq_step; [apply tok_lit|].
    eapply seq_step; [apply tok_d; assumption|].
    apply seq_nil. }
  destruct Hre as [l Hre].
  unfold strptime_date, regex_groups. rewrite Hre. cbn [app String.eqb].
  rewrite !int2, int4 by assumption. exact Hv.
Qed.

End StrictParse.

Module NormFacts.
Import Shapes StrictFacts StrictParse.

Lemma list_ascii_app (a b : string) :
  list_ascii_of_string (a ++ b) = (list_ascii_of_string a ++ list_ascii_of_string b)%list.
Proof. induction a; simpl; congruence. Qed.

Lemma string_of_list_app (a b : list ascii) :
  string_of_list_ascii (a ++ b) = string_of_list_ascii a ++ string_of_list_ascii b.
Proof. induction a; simpl; congruence. Qed.

Lemma rev_str_app (a b : string) : Py.rev_str (a ++ b) = Py.rev_str b ++ Py.rev_str a.
Proof.
  unfold Py.rev_str. rewrite list_ascii_app, rev_app_distr, string_of_list_app. reflexivity.
Qed.

Lemma rev_str_involutive (a : string) : Py.rev_str (Py.rev_str a) = a.
Proof.
  unfold Py.rev_str. rewrite list_ascii_of_string_of_list_ascii, rev_involutive.
  apply string_of_list_ascii_of_string.
Qed.

(** [strip] leaves a string whose end characters are not whitespace. *)
Lemma strip_id (s : string) (c : ascii) (x : string) (e : ascii) :
  s = String c (x ++ String e EmptyString) ->
  Py.is_space c = false -> Py.is_space e = false ->
  Py.strip s = s.
Proof.
  intros -> Hc He. unfold Py.strip.
  cbn [Py.lstrip]. rewrite Hc.
  change (String c (x ++ String e EmptyString)) with (String c x ++ String e EmptyString).
  rewrite rev_str_app.
  change (Py.rev_str (String e EmptyString)) with (String e EmptyString).
  change (String e EmptyString ++ Py.rev_str (String c x))
    with (String e (Py.rev_str (String c x))).
  cbn [Py.lstrip]. rewrite He.
  change (String e (Py.rev_str (String c x)))
    with (String e EmptyString ++ Py.rev_str (String c x)).
  change (String e EmptyString) with (Py.rev_str (String e EmptyString)).
  rewrite <- rev_str_app, rev_str_involutive. reflexivity.
Qed.

Lemma contains_single_false (c : ascii) (s : string) :
  Py.count_char c s = 0 -> Py.contains (String c EmptyString) s = false.
Proof.
  induction s as [|c' s IH]; intros H; [reflexivity|].
  rewrite SplitFacts.contains_cons_eq. cbn [Py.count_char] in H.
  destruct (Ascii.eqb_spec c c') as [<-|Hne]; [lia|].
  simpl prefix. destruct (ascii_dec c c'); [contradiction|]. apply IH. exact H.
Qed.

Ltac digit_rewrites :=
  repeat match goal with
         | Hd : Py.is_digit ?c = true |- _ =>
             let a := fresh in let b := fresh in let e := fresh in
             let f := fresh in let g := fresh in let h := fresh in
             destruct (digit_props c Hd) as (a & b & e & f & g & h); clear Hd
         end;
  repeat match goal with
         | E : ?x = false |- context [?x] => rewrite E
         | E : Py.lower_char ?c = ?c |- context [Py.lower_char ?c] => rewrite E
         end.

(** The three accepted shapes of [visit_time] with a strict date [D] and a
    strict time [Tm]. *)
Lemma normalize_visit_time_strict (D Tm : string) :
  strict_date D = true -> strict_time Tm = true ->
  Save.normalize_visit_time_str (D ++ " " ++ Tm) = D ++ " " ++ Tm /\
  Save.normalize_visit_time_str (D ++ "T" ++ Tm) = D ++ " " ++ Tm /\
  Save.normalize_visit_time_str D = D ++ " 00:00:00".
Proof.
  intros HD HT.
  pose proof (strptime_datetime_strict D Tm HD HT) as Hdt.
  pose proof (strptime_datetime_strict D "00:00:00" HD eq_refl) as Hmid.
  destruct (strict_date_chars D HD) as (y1 & y2 & y3 & y4 & m1 & m2 & d1 & d2 & -> & Hdig & _).
  destruct (strict_time_chars Tm HT) as (h1 & h2 & i1 & i2 & s1 & s2 & -> & Hdig' & _).
  cbn [forallb] in Hdig, Hdig'. rewrite andb_true_r in Hdig, Hdig'. split_bools.
  cbn [append] in Hdt, Hmid |- *.
  unfold Save.normalize_visit_time_str.
  repeat split.
  - rewrite contains_single_false by (cbn [Py.count_char]; digit_rewrites; reflexivity).
    rewrite (strip_id _ y1 (String y2 (String y3 (String y4 (String "-" (String m1 (String m2
               (String "-" (String d1 (String d2 (String " " (String h1 (String h2
               (String ":" (String i1 (String i2 (String ":" (String s1 EmptyString))))))))))))))))) s2)
      by (digit_rewrites; reflexivity).
    cbn [String.length append Nat.eqb andb]. rewrite Hdt. reflexivity.
  - rewrite StrFacts.contains_of_count
      by (cbn [Py.count_char]; digit_rewrites; simpl; lia).
    cbn [Py.replace_char]. digit_rewrites. cbv [Ascii.eqb Bool.eqb].
    rewrite (strip_id _ y1 (String y2 (String y3 (String y4 (String "-" (String m1 (String m2
               (String "-" (String d1 (String d2 (String " " (String h1 (String h2
               (String ":" (String i1 (String i2 (String ":" (String s1 EmptyString))))))))))))))))) s2)
      by (digit_rewrites; reflexivity).
    cbn [String.length append Nat.eqb andb]. rewrite Hdt. reflexivity.
  - rewrite contains_single_false by (cbn [Py.count_char]; digit_rewrites; reflexivity).
    rewrite (strip_id _ y1 (String y2 (String y3 (String y4 (String "-" (String m1 (String m2
               (String "-" (String d1 EmptyString)))))))) d2)
      by (digit_rewrites; reflexivity).
    cbn [String.length append Nat.eqb andb Py.count_char]. digit_rewrites.
    cbv [Ascii.eqb Bool.eqb]. cbn [Nat.add Nat.eqb andb append]. rewrite Hmid. reflexivity.
Qed.

End NormFacts.

Module SaveFacts.
Import Save Shapes StrictParse.

Lemma clean_dob_str (s : string) :
  clean_date_of_birth (JStr s) = inr (if Strptime.strptime_date s then s else NA).
Proof.
  unfold clean_date_of_birth. cbn [truthy].
  destruct (String.eqb_spec s "") as [->|Hne]; [reflexivity|]. cbn [negb].
  destruct (String.eqb_spec s NA) as [->|Hna]; [reflexivity|].
  destruct (Strptime.strptime_date s); reflexivity.
Qed.

Lemma clean_vt_str (s : string) :
  clean_visit_time (JStr s)
  = inr (if String.eqb s "" || String.eqb s NA then NA else normalize_visit_time_str s).
Proof.
  unfold clean_visit_time. cbn [truthy].
  destruct (String.eqb s ""), (String.eqb s NA); reflexivity.
Qed.

Lemma normalize_kept (s : string) :
  normalize_visit_time_str s = NA
  \/ Strptime.strptime_datetime (normalize_visit_time_str s) = true.
Proof.
  unfold normalize_visit_time_str. cbv zeta.
  match goal with
  | |- context [if Strptime.strptime_datetime ?x then _ else _] =>
      destruct (Strptime.strptime_datetime x) eqn:E
  end; [right; exact E | left; reflexivity].
Qed.

Lemma clean_dob_nonstring (v : jvalue) :
  truthy v = true -> (forall s, v <> JStr s) -> exists e, clean_date_of_birth v = inl e.
Proof.
  intros Ht Hs. unfold clean_date_of_birth. rewrite Ht. cbn [negb].
  destruct v; try (eexists; reflexivity). exfalso. exact (Hs s eq_refl).
Qed.

Lemma clean_vt_nonstring (v : jvalue) :
  truthy v = true -> (forall s, v <> JStr s) -> exists e, clean_visit_time v = inl e.
Proof.
  intros Ht Hs. unfold clean_visit_time. rewrite Ht. cbn [negb].
  destruct v; try (eexists; reflexivity). exfalso. exact (Hs s eq_refl).
Qed.

Lemma strict_date_not_sentinel (D : string) :
  strict_date D = true -> String.eqb D "" = false /\ String.eqb D NA = false.
Proof.
  intros HD. split.
  - destruct (String.eqb_spec D "") as [->|]; [discriminate HD|reflexivity].
  - destruct (String.eqb_spec D NA) as [->|]; [discriminate HD|reflexivity].
Qed.

Lemma strict_dt_not_sentinel (D r : string) :
  strict_date D = true -> String.eqb (D ++ r) "" = false /\ String.eqb (D ++ r) NA = false.
Proof.
  intros HD.
  destruct (strict_date_chars D HD) as (y1 & y2 & y3 & y4 & m1 & m2 & d1 & d2 & -> & _ & _).
  split.
  - destruct (String.eqb_spec (String y1 (String y2 (String y3 (String y4 (String "-"
      (String m1 (String m2 (String "-" (String d1 (String d2 EmptyString))))))))) ++ r)
      "") as [E|]; [discriminate E|reflexivity].
  - destruct (String.eqb_spec (String y1 (String y2 (String y3 (String y4 (String "-"
      (String m1 (String m2 (String "-" (String d1 (String d2 EmptyString))))))))) ++ r)
      NA) as [E|]; [discriminate E|reflexivity].
Qed.

Lemma clean_dob_strict (D : string) :
  strict_date D = true -> clean_date_of_birth (JStr D) = inr D.
Proof.
  intros HD. rewrite clean_dob_str, (strptime_date_strict D HD). reflexivity.
Qed.

Lemma clean_vt_strict (D Tm : string) :
  strict_date D = true -> strict_time Tm = true ->
  clean_visit_time (JStr (D ++ " " ++ Tm)) = inr (D ++ " " ++ Tm) /\
  clean_visit_time (JStr (D ++ "T" ++ Tm)) = inr (D ++ " " ++ Tm).
Proof.
  intros HD HT.
  destruct (NormFacts.normalize_visit_time_strict D Tm HD HT) as (E1 & E2 & _).
  destruct (strict_dt_not_sentinel D (" " ++ Tm) HD) as [N1 N2].
  destruct (strict_dt_not_sentinel D ("T" ++ Tm) HD) as [N3 N4].
  rewrite !clean_vt_str, N1, N2, N3, N4, E1, E2. split; reflexivity.
Qed.

Lemma sql_date_kept (x : string) : String.eqb x NA = false -> sql_date x = SqlVal (JStr x).
Proof. unfold sql_date. intros ->. reflexivity. Qed.

Lemma strict_datetime_split (s : string) :
  strict_datetime s = true ->
  exists D Tm, s = D ++ " " ++ Tm /\ strict_date D = true /\ strict_time Tm = true.
Proof.
  unfold strict_datetime. intros H.
  apply andb_prop in H as [H Hlen]. apply andb_prop in H as [H HT].
  apply andb_prop in H as [HD Hsp].
  exists (substring 0 10 s), (substring 11 8 s). split; [|split; assumption].
  do 19 (destruct s as [|? s]; [discriminate Hlen|]).
  destruct s; [|discriminate Hlen].
  cbn [substring] in Hsp |- *. apply String.eqb_eq in Hsp. injection Hsp as ->.
  reflexivity.
Qed.

End SaveFacts.

(* ------------------------------------------------------------------ *)
(** ** Field Validator: [visit_time] *)

(** C2 (code bug): the block is meant to ensure the
    [YYYY-MM-DD HH:MM:SS] format, but it validates with Python's lenient
    [strptime], so non-conforming values reach the [visit_time] column:
    ["2025-4-3 1:2:3"] is stored as it is, and ["2025-04-23 "] (ten
    characters once stripped) is stored as ["2025-04-23  00:00:00"] with
    two spaces, where the strict rule gives the sentinel (null) for both.
    A truthy non-string value such as the number [20250423] makes the block
    raise instead of giving the sentinel. *)
Lemma visit_time_lenient_and_raising :
  Save.clean_visit_time (Save.JStr "2025-4-3 1:2:3") = inr "2025-4-3 1:2:3" /\
  Save.sql_date "2025-4-3 1:2:3" = Save.SqlVal (Save.JStr "2025-4-3 1:2:3") /\
  Shapes.visit_time_as_specified "2025-4-3 1:2:3" = Save.NA /\
  Save.clean_visit_time (Save.JStr "2025-04-23 ") = inr "2025-04-23  00:00:00" /\
  Save.sql_date "2025-04-23  00:00:00" = Save.SqlVal (Save.JStr "2025-04-23  00:00:00") /\
  Shapes.visit_time_as_specified "2025-04-23 " = Save.NA /\
  exists e, Save.clean_visit_time (Save.JNum 20250423) = inl e.
Proof.
  split; [reflexivity|]. split; [reflexivity|]. split; [reflexivity|].
  split; [reflexivity|]. split; [reflexivity|]. split; [reflexivity|].
  eexists. reflexivity.
Qed.

(* ------------------------------------------------------------------ *)
(** ** Field Validator: [date_of_birth] *)

(** C3 (code bug): the block is meant to ensure the [YYYY-MM-DD] format,
    but it validates with Python's lenient [strptime], so ["2024-1-1"],
    which is not [YYYY-MM-DD], is stored in the [date_of_birth] column
    where the strict rule gives the sentinel (null). A truthy non-string
    value such as the number [19800715] makes the block raise instead of
    giving the sentinel. *)
Lemma dob_lenient_and_raising :
  Save.clean_date_of_birth (Save.JStr "2024-1-1") = inr "2024-1-1" /\
  Save.sql_date "2024-1-1" = Save.SqlVal (Save.JStr "2024-1-1") /\
  Shapes.strict_date "2024-1-1" = false /\
  exists e, Save.clean_date_of_birth (Save.JNum 19800715) = inl e.
Proof.
  split; [reflexivity|]. split; [reflexivity|]. split; [reflexivity|].
  eexists. reflexivity.
Qed.

(* ------------------------------------------------------------------ *)
(** ** Persistence Adapter: [save_diagnosis_to_db] *)

(** C4: an extractor sentinel or a payload [json.loads] refuses gives a
    failure with no storage operation; for every input the call returns a
    value and never lets an exception out; a connection failure, an insert
    refused by the server and a failed commit each come back as
    [(False, "Database error: ...")]. *)
Theorem save_failures_handled (json_loads : string -> Save.result Save.jvalue)
  (d : Save.db) (json_data : string) :
  ((Save.is_extractor_sentinel json_data = true \/ exists e, json_loads json_data = Save.Raise e) ->
   exists msg, Save.save_diagnosis_to_db json_loads d json_data [] = ([], Save.Ok (false, msg))) /\
  (exists t r, Save.save_diagnosis_to_db json_loads d json_data [] = (t, Save.Ok r)) /\
  (forall m, Save.is_extractor_sentinel json_data = false ->
   (exists v, json_loads json_data = Save.Ok v) -> Save.db_connect d = Some m ->
   Save.save_diagnosis_to_db json_loads d json_data []
   = ([Save.OpConnect], Save.Ok (false, "Database error: " ++ m))) /\
  (forall kv dob vt m, Save.is_extractor_sentinel json_data = false ->
   json_loads json_data = Save.Ok (Save.JObj kv) -> Save.db_connect d = None ->
   Save.clean_date_of_birth (Save.jget kv "date_of_birth" (Save.JStr Save.NA)) = inr dob ->
   Save.clean_visit_time (Save.jget kv "visit_time" (Save.JStr Save.NA)) = inr vt ->
   (forall row, Save.db_execute d row = Some m) ->
   exists row, Save.save_diagnosis_to_db json_loads d json_data []
   = ([Save.OpConnect; Save.OpExecute "triage" Save.columns row],
      Save.Ok (false, "Database error: " ++ m))) /\
  (forall kv dob vt m, Save.is_extractor_sentinel json_data = false ->
   json_loads json_data = Save.Ok (Save.JObj kv) -> Save.db_connect d = None ->
   Save.clean_date_of_birth (Save.jget kv "date_of_birth" (Save.JStr Save.NA)) = inr dob ->
   Save.clean_visit_time (Save.jget kv "visit_time" (Save.JStr Save.NA)) = inr vt ->
   (forall row, Save.db_execute d row = None) -> Save.db_commit d = Some m ->
   exists row, Save.save_diagnosis_to_db json_loads d json_data []
   = ([Save.OpConnect; Save.OpExecute "triage" Save.columns row; Save.OpCommit],
      Save.Ok (false, "Database error: " ++ m))).
Proof.
  unfold Save.save_diagnosis_to_db.
  split; [|split; [|split; [|split]]].
  - intros [Hs|[e Hl]].
    + rewrite Hs. eexists. reflexivity.
    + destruct (Save.is_extractor_sentinel json_data); [eexists; reflexivity|].
      unfold Save.try_except, Save.save_body. rewrite Hl.
      destruct e; eexists; reflexivity.
  - destruct (Save.is_extractor_sentinel json_data); [do 2 eexists; reflexivity|].
    unfold Save.try_except.
    destruct (Save.save_body json_loads d json_data []) as [t [r|e]];
      do 2 eexists; reflexivity.
  - intros m Hs [v Hl] Hc. rewrite Hs.
    unfold Save.try_except, Save.save_body. rewrite Hl.
    cbv [Save.bind Save.db_step Save.emit Save.ret Save.raise]. rewrite Hc. reflexivity.
  - intros kv dob vt m Hs Hl Hc Hdob Hvt He. rewrite Hs.
    unfold Save.try_except, Save.save_body. rewrite Hl.
    cbv [Save.bind Save.db_step Save.emit Save.ret Save.raise Save.lift]. rewrite Hc.
    cbn [app]. rewrite Hdob, Hvt, He. eexists. reflexivity.
  - intros kv dob vt m Hs Hl Hc Hdob Hvt He Hcm. rewrite Hs.
    unfold Save.try_except, Save.save_body. rewrite Hl.
    cbv [Save.bind Save.db_step Save.emit Save.ret Save.raise Save.lift]. rewrite Hc.
    cbn [app]. rewrite Hdob, Hvt, He. cbn [app]. rewrite Hcm. eexists. reflexivity.
Qed.

Lemma save_failures_handled_witness :
  Save.save_diagnosis_to_db Samples.sample_loads Samples.db_up "Invalid JSON format" []
    = ([], Save.Ok (false, "No valid data to save to database.")) /\
  Save.save_diagnosis_to_db Samples.sample_loads Samples.db_up "not json" []
    = ([], Save.Ok (false, "Failed to parse JSON data.")) /\
  Save.save_diagnosis_to_db Samples.sample_loads Samples.db_down Samples.sample_json []
    = ([Save.OpConnect], Save.Ok (false, "Database error: Can't connect to MySQL server")).
Proof.
  destruct (save_failures_handled Samples.sample_loads Samples.db_up "Invalid JSON format")
    as (H1 & _).
  destruct (H1 (or_introl eq_refl)) as [m1 E1].
  destruct (save_failures_handled Samples.sample_loads Samples.db_up "not json")
    as (H2 & _).
  destruct (H2 (or_intror (ex_intro _ _ eq_refl))) as [m2 E2].
  destruct (save_failures_handled Samples.sample_loads Samples.db_down Samples.sample_json)
    as (_ & _ & H3 & _).
  split; [rewrite E1; vm_compute in E1; rewrite E1; reflexivity|].
  split; [rewrite E2; vm_compute in E2; rewrite E2; reflexivity|].
  apply H3; [reflexivity | eexists; reflexivity | reflexivity].
Defined.

(** C8: a well-formed payload (a JSON object whose [date_of_birth] is a
    strict [YYYY-MM-DD] date and whose [visit_time] is a strict date and
    time with a space or [T] separator) is written as one row of the nine
    triage columns holding the payload's values, [visit_time] in its
    [YYYY-MM-DD HH:MM:SS] spelling, then committed; the row is a function of
    those nine values only, so a [medical_reasoning] entry, present or not,
    reaches neither the row nor the column list. *)
Theorem well_formed_payload_round_trip (json_loads : string -> Save.result Save.jvalue)
  (d : Save.db) (json_data : string) (kv : list (string * Save.jvalue))
  (patient_name severity primary_diagnosis secondary_diagnoses recommended_tests
   recommended_treatment follow_up : Save.jvalue) (dob D Tm : string)
  (Hs : Save.is_extractor_sentinel json_data = false)
  (Hl : json_loads json_data = Save.Ok (Save.JObj kv))
  (Hpn : Save.jget kv "patient_name" (Save.JStr Save.NA) = patient_name)
  (Hdob : Save.jget kv "date_of_birth" (Save.JStr Save.NA) = Save.JStr dob)
  (Hvt : Save.jget kv "visit_time" (Save.JStr Save.NA) = Save.JStr (D ++ " " ++ Tm) \/
         Save.jget kv "visit_time" (Save.JStr Save.NA) = Save.JStr (D ++ "T" ++ Tm))
  (Hsev : Save.jget kv "severity" (Save.JStr Save.NA) = severity)
  (Hpd : Save.jget kv "primary_diagnosis" (Save.JStr Save.NA) = primary_diagnosis)
  (Hsd : Save.jget kv "secondary_diagnoses" (Save.JStr Save.NA) = secondary_diagnoses)
  (Hrt : Save.jget kv "recommended_tests" (Save.JStr Save.NA) = recommended_tests)
  (Hrtr : Save.jget kv "recommended_treatment" (Save.JStr Save.NA) = recommended_treatment)
  (Hfu : Save.jget kv "follow_up" (Save.JStr Save.NA) = follow_up)
  (Hdob_ok : Shapes.strict_date dob = true)
  (HD : Shapes.strict_date D = true) (HT : Shapes.strict_time Tm = true)
  (Hc : Save.db_connect d = None) (He : forall row, Save.db_execute d row = None)
  (Hcm : Save.db_commit d = None) :
  Save.save_diagnosis_to_db json_loads d json_data []
  = ([Save.OpConnect;
      Save.OpExecute "triage" Save.columns
        [Save.SqlVal patient_name; Save.SqlVal (Save.JStr dob);
         Save.SqlVal (Save.JStr (D ++ " " ++ Tm)); Save.SqlVal severity;
         Save.SqlVal primary_diagnosis; Save.SqlVal secondary_diagnoses;
         Save.SqlVal recommended_tests; Save.SqlVal recommended_treatment;
         Save.SqlVal follow_up];
      Save.OpCommit; Save.OpClose],
     Save.Ok (true, "Diagnosis saved successfully to database with ID: "
                    ++ Save.Z_to_string (Save.db_lastrowid d))) /\
  ~ In "medical_reasoning" Save.columns.
Proof.
  split; [|cbn; intuition discriminate].
  assert (Hv : Save.clean_visit_time (Save.jget kv "visit_time" (Save.JStr Save.NA))
               = inr (D ++ " " ++ Tm)).
  { destruct (SaveFacts.clean_vt_strict D Tm HD HT) as [E1 E2].
    destruct Hvt as [-> | ->]; assumption. }
  unfold Save.save_diagnosis_to_db. rewrite Hs.
  unfold Save.try_except, Save.save_body. rewrite Hl.
  cbv [Save.bind Save.db_step Save.emit Save.ret Save.raise Save.lift]. rewrite Hc.
  cbn [app]. rewrite Hdob, SaveFacts.clean_dob_strict by exact Hdob_ok. rewrite Hv, He.
  cbn [app]. rewrite Hcm. cbn [app].
  rewrite (SaveFacts.sql_date_kept dob)
    by exact (proj2 (SaveFacts.strict_date_not_sentinel dob Hdob_ok)).
  rewrite (SaveFacts.sql_date_kept (D ++ " " ++ Tm))
    by exact (proj2 (SaveFacts.strict_dt_not_sentinel D (" " ++ Tm) HD)).
  rewrite Hpn, Hsev, Hpd, Hsd, Hrt, Hrtr, Hfu. reflexivity.
Qed.

Lemma well_formed_payload_round_trip_witness :
  Save.save_diagnosis_to_db Samples.sample_loads Samples.db_up Samples.sample_json []
  = ([Save.OpConnect;
      Save.OpExecute "triage" Save.columns
        [Save.SqlVal (Save.JStr "Ana Ruiz"); Save.SqlVal (Save.JStr "1980-07-15");
         Save.SqlVal (Save.JStr "2025-04-23 14:30:00"); Save.SqlVal (Save.JStr "High");
         Save.SqlVal (Save.JStr "Pneumonia"); Save.SqlVal (Save.JStr "None");
         Save.SqlVal (Save.JStr "Chest X-ray"); Save.SqlVal (Save.JStr "Antibiotics");
         Save.SqlVal (Save.JStr "48h")];
      Save.OpCommit; Save.OpClose],
     Save.Ok (true, "Diagnosis saved successfully to database with ID: 42")) /\
  ~ In "medical_reasoning" Save.columns.
Proof.
  apply (well_formed_payload_round_trip Samples.sample_loads Samples.db_up Samples.sample_json
           Samples.sample_kv _ _ _ _ _ _ _ "1980-07-15" "2025-04-23" "14:30:00");
    try reflexivity.
  right. reflexivity.
Defined.

(* ------------------------------------------------------------------ *)
(** ** Field Validator: idempotence of the [visit_time] normalisation *)

(** C9: a value already in the form [YYYY-MM-DD HH:MM:SS] (a valid date and
    time) is left as it is by the normalisation, and the [visit_time]
    block keeps it. *)
Theorem normalized_visit_time_fixed (s : string) (Hs : Shapes.strict_datetime s = true) :
  Save.normalize_visit_time_str s = s /\ Save.clean_visit_time (Save.JStr s) = inr s.
Proof.
  destruct (SaveFacts.strict_datetime_split s Hs) as (D & Tm & -> & HD & HT).
  split.
  - exact (proj1 (NormFacts.normalize_visit_time_strict D Tm HD HT)).
  - exact (proj1 (SaveFacts.clean_vt_strict D Tm HD HT)).
Qed.

Lemma normalized_visit_time_fixed_witness :
  Shapes.strict_datetime "2024-02-29 23:59:59" = true /\
  Save.normalize_visit_time_str "2024-02-29 23:59:59" = "2024-02-29 23:59:59" /\
  Save.clean_visit_time (Save.JStr "2024-02-29 23:59:59") = inr "2024-02-29 23:59:59".
Proof.
  split; [reflexivity|]. apply normalized_visit_time_fixed. reflexivity.
Defined.

(* ------------------------------------------------------------------ *)
(** ** Interface handlers: languages, transcription, translation,
    health checks, configuration and diagnosis *)

Module UiFacts.
Import Save Ui.

Lemma existsb_eqb_false (l : string) (xs : list string) :
  ~ In l xs -> existsb (String.eqb l) xs = false.
Proof.
  intros H. apply Bool.not_true_iff_false. intros E.
  apply existsb_exists in E as [x [Hx Ex]]. apply String.eqb_eq in Ex. subst. contradiction.
Qed.

Lemma normalize_cases (x : string) :
  Lang.normalize_language_name x = "Unknown" \/
  (In (Lang.normalize_language_name x) Lang.languages /\
   Lang.normalize_language_name (Lang.get_iso_language_code (Lang.normalize_language_name x))
   = Lang.normalize_language_name x /\
   Lang.get_language_code (Lang.normalize_language_name x) = Lang.get_language_code x).
Proof.
  destruct (String.eqb_spec x "") as [->|Hx]; [right; vm_compute; tauto|].
  apply String.eqb_neq in Hx.
  assert (Hn : Lang.normalize_language_name x = Lang.dict_get Lang.code_map (Py.lower x) "Unknown")
    by (unfold Lang.normalize_language_name; rewrite Hx; reflexivity).
  remember (Lang.get_language_code x) as g eqn:Hg.
  unfold Lang.get_language_code in Hg. rewrite Hx in Hg. cbv zeta in Hg.
  rewrite Hn. clear Hn Hx. generalize dependent (Py.lower x). intros l Hg.
  destruct (in_dec string_dec l (map fst Lang.code_map)) as [Hin|Hn].
  - right. subst g. cbn [map fst Lang.code_map] in Hin.
    repeat (destruct Hin as [<-|Hin]; [vm_compute; tauto|]); destruct Hin.
  - left. apply LangFacts.dict_get_notin. exact Hn.
Qed.

Lemma get_language_code_range (x : string) : In (Lang.get_language_code x) nllb_names.
Proof.
  unfold Lang.get_language_code. cbv zeta.
  generalize (if String.eqb x "" then "english" else Py.lower x). intros n.
  repeat match goal with |- context [if ?b then _ else _] => destruct b end;
    cbv [nllb_names In]; tauto.
Qed.

End UiFacts.

Module UiFacts2.
Import Save Ui.

Lemma lstrip_head (s : string) :
  Py.lstrip s = "" \/ exists c t, Py.lstrip s = String c t /\ Py.is_space c = false.
Proof.
  induction s as [|c s IH]; [left; reflexivity|]. simpl.
  destruct (Py.is_space c) eqn:E; [exact IH|right; eauto].
Qed.

Lemma forallb_rev_str (s : string) :
  forallb Py.is_space (list_ascii_of_string (Py.rev_str s))
  = forallb Py.is_space (list_ascii_of_string s).
Proof.
  unfold Py.rev_str. rewrite list_ascii_of_string_of_list_ascii.
  induction (list_ascii_of_string s) as [|c l IH]; [reflexivity|].
  simpl. rewrite forallb_app, IH. simpl. rewrite andb_true_r, andb_comm. reflexivity.
Qed.

Lemma rev_str_empty (s : string) : Py.rev_str s = "" -> s = "".
Proof.
  destruct s as [|c s]; [reflexivity|]. unfold Py.rev_str. simpl.
  destruct (rev (list_ascii_of_string s)); discriminate.
Qed.

Lemma lstrip_empty (s : string) :
  Py.lstrip s = "" -> forallb Py.is_space (list_ascii_of_string s) = true.
Proof.
  induction s as [|c s IH]; [reflexivity|]. simpl.
  destruct (Py.is_space c); [exact IH|discriminate].
Qed.

Lemma lstrip_all_space (s : string) :
  forallb Py.is_space (list_ascii_of_string s) = true -> Py.lstrip s = "".
Proof.
  induction s as [|c s IH]; [reflexivity|]. simpl.
  destruct (Py.is_space c); [exact IH|discriminate].
Qed.

Lemma lstrip_spaces (s : string) :
  forallb Py.is_space (list_ascii_of_string (Py.lstrip s)) = true -> Py.lstrip s = "".
Proof.
  intros H. destruct (lstrip_head s) as [E|(c & t & E & Hc)]; [exact E|].
  rewrite E in H. simpl in H. rewrite Hc in H. discriminate.
Qed.

Lemma strip_empty (s : string) :
  Py.strip s = "" -> forallb Py.is_space (list_ascii_of_string s) = true.
Proof.
  unfold Py.strip. intros H. apply rev_str_empty, lstrip_empty in H.
  rewrite forallb_rev_str in H. apply lstrip_spaces in H.
  clear -H. induction s as [|c s IH]; [reflexivity|]. simpl in *.
  destruct (Py.is_space c); [apply IH; exact H|discriminate].
Qed.

Lemma strip_nonblank (c : ascii) (s : string) :
  Py.is_space c = false -> Py.strip (String c s) <> "".
Proof.
  intros Hc E. apply strip_empty in E. simpl in E. rewrite Hc in E. discriminate.
Qed.

Lemma normalize_range (x : string) :
  Lang.normalize_language_name x = "Unknown" \/ In (Lang.normalize_language_name x) Lang.languages.
Proof.
  destruct (UiFacts.normalize_cases x) as [E|(E & _)]; [left|right]; exact E.
Qed.

End UiFacts2.

Module UiFacts3.
Import Save Ui.

Lemma find_app {A} (f : A -> bool) (l1 l2 : list A) :
  find f (l1 ++ l2) = match find f l1 with Some x => Some x | None => find f l2 end.
Proof. induction l1 as [|a l1 IH]; simpl; [reflexivity|]. destruct (f a); [reflexivity|exact IH]. Qed.

Lemma has_key_app (kv1 kv2 : list (string * jvalue)) (k : string) :
  has_key (kv1 ++ kv2) k = has_key kv1 k || has_key kv2 k.
Proof. unfold has_key. apply existsb_app. Qed.

Lemma has_key_rev (kv : list (string * jvalue)) (k : string) :
  has_key (rev kv) k = has_key kv k.
Proof.
  induction kv as [|p kv IH]; [reflexivity|]. cbn [rev].
  rewrite has_key_app, IH. unfold has_key. cbn. rewrite orb_false_r, orb_comm. reflexivity.
Qed.

Lemma has_key_filter_false (kv services : list (string * jvalue)) (k : string) :
  has_key kv k = true ->
  has_key (filter (fun p => negb (has_key kv (fst p))) services) k = false.
Proof.
  intros Hk. unfold has_key at 1. apply Bool.not_true_iff_false. intros E.
  apply existsb_exists in E as [[k' v] [Hin Ek]]. apply filter_In in Hin as [_ Hn].
  apply String.eqb_eq in Ek. cbn [fst] in *. subst k'. rewrite Hk in Hn. discriminate.
Qed.

Lemma find_none_has_key (kv : list (string * jvalue)) (k : string) :
  has_key kv k = false -> find (fun p => String.eqb (fst p) k) kv = None.
Proof.
  induction kv as [|[k' v] kv IH]; [reflexivity|]. unfold has_key. cbn.
  destruct (String.eqb k' k); [discriminate|exact IH].
Qed.

Lemma jget_app_left (kv1 kv2 : list (string * jvalue)) (k : string) (d : jvalue) :
  has_key kv2 k = false -> jget (kv1 ++ kv2) k d = jget kv1 k d.
Proof.
  intros H. unfold jget. rewrite rev_app_distr, find_app.
  rewrite find_none_has_key; [reflexivity|]. rewrite has_key_rev. exact H.
Qed.

(** The merge loop on a dict appends, in order, the entries of [services]
    whose keys the dict lacks. *)
Lemma merge_defaults_obj (services kv : list (string * jvalue)) :
  NoDup (map fst services) ->
  merge_defaults services (JObj kv)
  = inr (JObj (kv ++ filter (fun p => negb (has_key kv (fst p))) services)).
Proof.
  revert kv. induction services as [|[s d] rest IH]; intros kv Hnd.
  - cbn. rewrite app_nil_r. reflexivity.
  - inversion Hnd as [|? ? Hs Hnd']; subst. cbn [merge_defaults py_in ebind filter fst].
    destruct (has_key kv s) eqn:Hk; cbn [negb].
    + apply IH. exact Hnd'.
    + cbn [setitem ebind]. rewrite Hk. rewrite IH by exact Hnd'.
      rewrite <- app_assoc. cbn [app]. do 4 f_equal.
      apply filter_ext_in. intros [k v] Hin. cbn [fst].
      rewrite has_key_app. unfold has_key at 2. cbn.
      destruct (String.eqb_spec s k) as [->|_]; [|rewrite orb_false_r; reflexivity].
      exfalso. apply Hs. apply (in_map fst) in Hin. exact Hin.
Qed.

Lemma DEFAULTS_keys (getenv : string -> string) :
  map fst (DEFAULTS getenv) = ["medreason"; "whisper"; "nllb"; "medgemma"].
Proof. reflexivity. Qed.

Lemma DEFAULTS_nodup (getenv : string -> string) : NoDup (map fst (DEFAULTS getenv)).
Proof.
  rewrite DEFAULTS_keys. repeat constructor; cbn; intuition discriminate.
Qed.

End UiFacts3.

Import Save Ui.

(** X1: the NLLB code of a normalised language name is the NLLB code of the
    name itself: [get_language_code (normalize_language_name x)] equals
    [get_language_code x] for every input, including the [Unknown]
    fallback. *)
Theorem language_code_after_normalize (x : string) :
  Lang.get_language_code (Lang.normalize_language_name x) = Lang.get_language_code x.
Proof.
  destruct (UiFacts.normalize_cases x) as [E|(_ & _ & E)]; [|exact E].
  rewrite E.
  destruct (String.eqb_spec x "") as [->|Hx]; [reflexivity|].
  apply String.eqb_neq in Hx.
  unfold Lang.normalize_language_name in E. rewrite Hx in E.
  remember (Lang.get_language_code x) as g eqn:Hg.
  unfold Lang.get_language_code in Hg. rewrite Hx in Hg. cbv zeta in Hg.
  subst g. generalize dependent (Py.lower x). intros l E.
  rewrite !UiFacts.existsb_eqb_false; [reflexivity|..];
    intros Hin; cbn [In] in Hin;
    repeat (destruct Hin as [<-|Hin]; [vm_compute in E; discriminate E|]); destruct Hin.
Qed.

(** X2: [normalize_language_name] returns [Unknown] or one of the eight
    supported names, and a supported name survives the round trip through
    [get_iso_language_code] and back. *)
Theorem normalize_language_round_trip (x : string) :
  Lang.normalize_language_name x = "Unknown" \/
  (In (Lang.normalize_language_name x) Lang.languages /\
   Lang.normalize_language_name (Lang.get_iso_language_code (Lang.normalize_language_name x))
   = Lang.normalize_language_name x).
Proof.
  destruct (UiFacts.normalize_cases x) as [E|(E1 & E2 & _)]; [left; exact E|right; auto].
Qed.

(** X3: [translate_text_only] sends no NLLB request when the transcription is
    blank after stripping or when the two languages are equal ignoring
    case; it then returns an empty translation or the transcription
    itself. *)
Theorem translate_only_without_request
  (nllb_post nllb_post' : string -> string -> string -> http_outcome)
  (py_str : jvalue -> string) (transcription patient_language doctor_language : string)
  (H : Py.strip transcription = "" \/ Py.lower doctor_language = Py.lower patient_language) :
  translate_text_only nllb_post py_str transcription patient_language doctor_language
  = translate_text_only nllb_post' py_str transcription patient_language doctor_language /\
  fst (translate_text_only nllb_post py_str transcription patient_language doctor_language)
  = (if String.eqb (Py.strip transcription) "" then JStr "" else JStr transcription).
Proof.
  unfold translate_text_only.
  destruct (String.eqb_spec (Py.strip transcription) "") as [E|E]; [split; reflexivity|].
  destruct H as [H|H]; [contradiction|]. rewrite H, String.eqb_refl. split; reflexivity.
Qed.

Lemma translate_only_without_request_witness :
  translate_text_only UiSamples.nllb_empty_predictions UiSamples.py_str_blank
    "Good morning" "English" "ENGLISH"
  = translate_text_only (fun _ _ _ => HttpFail (EIOError "Connection refused"))
      UiSamples.py_str_blank "Good morning" "English" "ENGLISH" /\
  fst (translate_text_only UiSamples.nllb_empty_predictions UiSamples.py_str_blank
         "Good morning" "English" "ENGLISH")
  = (if String.eqb (Py.strip "Good morning") "" then JStr "" else JStr "Good morning").
Proof.
  apply translate_only_without_request. right. reflexivity.
Defined.

(** X4: for a non-blank transcription between two languages that differ
    ignoring case, [translate_text_only] translates with the NLLB codes
    [get_language_code] gives for the two languages, and both codes are
    among the eight lowercase NLLB language names. *)
Theorem translate_only_language_codes
  (nllb_post : string -> string -> string -> http_outcome)
  (py_str : jvalue -> string) (transcription patient_language doctor_language : string)
  (Hne : Py.strip transcription <> "")
  (Hd : Py.lower doctor_language <> Py.lower patient_language) :
  fst (translate_text_only nllb_post py_str transcription patient_language doctor_language)
  = translate_text nllb_post py_str transcription
      (Lang.get_language_code patient_language) (Lang.get_language_code doctor_language) /\
  In (Lang.get_language_code patient_language) nllb_names /\
  In (Lang.get_language_code doctor_language) nllb_names.
Proof.
  unfold translate_text_only.
  apply String.eqb_neq in Hne, Hd. rewrite Hne, Hd.
  split; [reflexivity|].
  split; apply UiFacts.get_language_code_range.
Qed.

Lemma translate_only_language_codes_witness :
  fst (translate_text_only UiSamples.nllb_empty_predictions UiSamples.py_str_blank
         "Good morning" "English" "German")
  = translate_text UiSamples.nllb_empty_predictions UiSamples.py_str_blank "Good morning"
      (Lang.get_language_code "English") (Lang.get_language_code "German") /\
  In (Lang.get_language_code "English") nllb_names /\
  In (Lang.get_language_code "German") nllb_names.
Proof.
  apply translate_only_language_codes.
  - intros E. vm_compute in E. discriminate E.
  - intros E. vm_compute in E. discriminate E.
Defined.

(** X5: when a 200 NLLB response is a dict with a [predictions] key, the
    translation depends only on that value; an empty [predictions] list
    gives ["Error: list index out of range"]. *)
Theorem nllb_predictions_first (nllb_post : string -> string -> string -> http_outcome)
  (py_str : jvalue -> string) (text source_lang target_lang txt : string)
  (kv : list (string * jvalue))
  (Hpost : nllb_post text source_lang target_lang = HttpResp 200 (inr (JObj kv)) txt)
  (Hp : has_key kv "predictions" = true) :
  (forall kv', has_key kv' "predictions" = true ->
   jget kv' "predictions" JNull = jget kv "predictions" JNull ->
   extract_translation py_str (JObj kv') = extract_translation py_str (JObj kv)) /\
  (jget kv "predictions" JNull = JArr [] ->
   translate_text nllb_post py_str text source_lang target_lang
   = JStr "Error: list index out of range").
Proof.
  split.
  - intros kv' Hp' Hj. unfold extract_translation. cbn [py_in ebind]. rewrite Hp, Hp'.
    unfold getitem. rewrite Hp, Hp', Hj. reflexivity.
  - intros Hj. unfold translate_text. rewrite Hpost. cbn [Z.eqb ebind].
    unfold extract_translation. cbn [py_in ebind]. rewrite Hp.
    unfold getitem. rewrite Hp, Hj. reflexivity.
Qed.

Lemma nllb_predictions_first_witness :
  translate_text UiSamples.nllb_empty_predictions UiSamples.py_str_blank "Hello" "english" "german"
  = JStr "Error: list index out of range".
Proof.
  apply (proj2 (nllb_predictions_first UiSamples.nllb_empty_predictions UiSamples.py_str_blank
                  "Hello" "english" "german" "" [("predictions", JArr [])] eq_refl eq_refl)).
  reflexivity.
Defined.

(** X6: the language [transcribe_audio] reports is one of the eight supported
    names or [Unknown], whatever the Whisper endpoint answers. *)
Theorem transcribe_audio_language (whisper_post : string -> option string -> http_outcome)
  (audio_path : string) (auto_detect : bool) (expected_language : string) :
  In (fst (transcribe_audio whisper_post audio_path auto_detect expected_language)) Lang.languages
  \/ fst (transcribe_audio whisper_post audio_path auto_detect expected_language) = "Unknown".
Proof.
  unfold transcribe_audio.
  destruct (whisper_post _ _) as [code body text|e]; [|right; reflexivity].
  destruct (Z.eqb code 200); [|right; reflexivity].
  destruct body as [e|[| | | | |kv]]; try (right; reflexivity).
  unfold normalize_detected.
  destruct (negb (truthy _)).
  - left. simpl. tauto.
  - destruct (jget kv "language" (JStr "Unknown")); try (right; reflexivity).
    destruct (UiFacts2.normalize_range s) as [E|E]; [right|left]; exact E.
Qed.

(** X7: when audio is given and the Whisper request fails or answers a
    status other than 200, [transcribe_doctor_notes] returns the error text
    as the transcription with the status ["Transcription complete."]. *)
Theorem doctor_notes_failure_as_transcription
  (whisper_post : string -> option string -> http_outcome)
  (audio_mode audio_file audio_recorder : string)
  (Hpath : audio_path_of audio_mode audio_file audio_recorder <> "") :
  (forall code body text,
     whisper_post (audio_path_of audio_mode audio_file audio_recorder) (Some "en")
     = HttpResp code body text -> code <> 200%Z ->
     transcribe_doctor_notes whisper_post audio_mode audio_file audio_recorder
     = ("Transcription failed: API returned status " ++ Z_to_string code
        ++ ", message: " ++ text, "Transcription complete.")) /\
  (forall e,
     whisper_post (audio_path_of audio_mode audio_file audio_recorder) (Some "en") = HttpFail e ->
     transcribe_doctor_notes whisper_post audio_mode audio_file audio_recorder
     = ("Error: " ++ err_msg e, "Transcription complete.")).
Proof.
  unfold transcribe_doctor_notes, transcribe_audio. cbv zeta.
  apply String.eqb_neq in Hpath. rewrite Hpath.
  change (Lang.get_iso_language_code "English") with "en".
  split.
  - intros code body text Hp Hc. rewrite Hp.
    apply Z.eqb_neq in Hc. rewrite Hc. cbn [truthy negb String.eqb append].
    rewrite (proj2 (String.eqb_neq _ _) (UiFacts2.strip_nonblank "T"%char _ eq_refl)). reflexivity.
  - intros e Hp. rewrite Hp. cbn [truthy negb String.eqb append].
    rewrite (proj2 (String.eqb_neq _ _) (UiFacts2.strip_nonblank "E"%char _ eq_refl)). reflexivity.
Qed.

Lemma doctor_notes_failure_as_transcription_witness :
  transcribe_doctor_notes UiSamples.whisper_busy "Upload Audio File" "/tmp/notes.wav" ""
  = ("Transcription failed: API returned status 503, message: busy", "Transcription complete.").
Proof.
  rewrite (proj1 (doctor_notes_failure_as_transcription UiSamples.whisper_busy
                    "Upload Audio File" "/tmp/notes.wav" "" ltac:(discriminate))
                 503%Z (inl (EJSONDecodeError "Expecting value")) "busy" eq_refl ltac:(discriminate)).
  reflexivity.
Defined.

(** X8: [transcribe_doctor_notes] depends on the Whisper endpoint only
    through its answer to the selected audio with language [en], and the
    transcription it returns is empty or not blank. *)
Theorem doctor_notes_english_nonblank
  (whisper_post whisper_post' : string -> option string -> http_outcome)
  (audio_mode audio_file audio_recorder : string) :
  (whisper_post (audio_path_of audio_mode audio_file audio_recorder) (Some "en")
   = whisper_post' (audio_path_of audio_mode audio_file audio_recorder) (Some "en") ->
   transcribe_doctor_notes whisper_post audio_mode audio_file audio_recorder
   = transcribe_doctor_notes whisper_post' audio_mode audio_file audio_recorder) /\
  (fst (transcribe_doctor_notes whisper_post audio_mode audio_file audio_recorder) = "" \/
   Py.strip (fst (transcribe_doctor_notes whisper_post audio_mode audio_file audio_recorder)) <> "").
Proof.
  unfold transcribe_doctor_notes, transcribe_audio. cbv zeta.
  change (Lang.get_iso_language_code "English") with "en".
  split.
  - intros H. rewrite H. reflexivity.
  - destruct (String.eqb _ ""); [left; reflexivity|].
    match goal with
    | |- context [match ?x with (_, _) => _ end] => destruct x as [lang tr]
    end.
    destruct (negb (truthy tr)); [left; reflexivity|].
    destruct tr; try (left; reflexivity).
    destruct (String.eqb_spec (Py.strip s) "") as [E|E]; [left|right]; exact E || reflexivity.
Qed.

(** X9: a non-empty transcription from [transcribe_audio_only] comes from a
    200 Whisper answer, for the ISO code of the patient language, that is a
    dict whose [text] is a non-blank string; the status is then
    ["Transcribed in <language>."]. *)
Theorem audio_only_transcription_source
  (whisper_post : string -> option string -> http_outcome)
  (audio_mode audio_file audio_recorder patient_language : string)
  (H : fst (transcribe_audio_only whisper_post audio_mode audio_file audio_recorder
              patient_language) <> "") :
  exists kv text s,
    whisper_post (audio_path_of audio_mode audio_file audio_recorder)
      (Some (Lang.get_iso_language_code patient_language))
    = HttpResp 200 (inr (JObj kv)) text /\
    jget kv "text" (JStr "") = JStr s /\ Py.strip s <> "" /\
    transcribe_audio_only whisper_post audio_mode audio_file audio_recorder patient_language
    = (s, "Transcribed in " ++ patient_language ++ ".").
Proof.
  unfold transcribe_audio_only in *. cbv zeta in *.
  destruct (String.eqb _ ""); [contradiction H; reflexivity|].
  destruct (whisper_post _ _) as [code body text|e]; [|contradiction H; reflexivity].
  destruct (Z.eqb_spec code 200) as [->|Hc]; [|contradiction H; reflexivity].
  destruct body as [e|[| | | | |kv]]; try (contradiction H; reflexivity).
  destruct (negb (truthy (jget kv "text" (JStr "")))); [contradiction H; reflexivity|].
  destruct (jget kv "text" (JStr "")) eqn:Ej; try (contradiction H; reflexivity).
  destruct (String.eqb_spec (Py.strip s) "") as [E|E]; [contradiction H; reflexivity|].
  exists kv, text, s. auto.
Qed.

Lemma audio_only_transcription_source_witness :
  exists kv text s,
    UiSamples.whisper_german (audio_path_of "Record Audio" "" "/tmp/rec.wav")
      (Some (Lang.get_iso_language_code "German"))
    = HttpResp 200 (inr (JObj kv)) text /\
    jget kv "text" (JStr "") = JStr s /\ Py.strip s <> "" /\
    transcribe_audio_only UiSamples.whisper_german "Record Audio" "" "/tmp/rec.wav" "German"
    = (s, "Transcribed in " ++ "German" ++ ".").
Proof.
  apply audio_only_transcription_source. intros E. vm_compute in E. discriminate E.
Defined.

(** X10: for a model type other than [medreason], [whisper], [nllb] and
    [medgemma], [check_model] sends no request and reports the service
    unavailable. *)
Theorem check_model_unknown_type
  (health_post health_post' : string -> string -> payload -> http_outcome)
  (model_type url token : string)
  (Ht : ~ In model_type ["medreason"; "whisper"; "nllb"; "medgemma"]) :
  check_model health_post model_type url token = check_model health_post' model_type url token /\
  fst (check_model health_post model_type url token) = false.
Proof.
  unfold check_model.
  assert (N : forall n, In n ["medreason"; "whisper"; "nllb"; "medgemma"] ->
                String.eqb model_type n = false).
  { intros n Hn. apply String.eqb_neq. intros ->. contradiction. }
  rewrite !N by (simpl; tauto). split; reflexivity.
Qed.

Lemma check_model_unknown_type_witness :
  check_model UiSamples.health_up "ollama" "http://ollama" "t"
  = check_model UiSamples.health_whisper_400 "ollama" "http://ollama" "t" /\
  fst (check_model UiSamples.health_up "ollama" "http://ollama" "t") = false.
Proof.
  apply check_model_unknown_type. cbn. intuition discriminate.
Defined.

(** X11: [check_model] reports a service available only after a 200 answer
    to the request for its model type (to the chat completions path for
    MedGemma), or a 400 answer for Whisper. *)
Theorem check_model_available (health_post : string -> string -> payload -> http_outcome)
  (model_type url token : string)
  (H : fst (check_model health_post model_type url token) = true) :
  (model_type = "medgemma" /\
   exists body text,
     health_post (url ++ "/v1/chat/completions") token PMedGemma = HttpResp 200 body text) \/
  (exists p code body text,
     In (model_type, p) [("medreason", PMedReason); ("whisper", PWhisper); ("nllb", PNllb)] /\
     health_post url token p = HttpResp code body text /\
     (code = 200%Z \/ (model_type = "whisper" /\ code = 400%Z))).
Proof.
  unfold check_model in H. cbv zeta in H.
  destruct (String.eqb_spec model_type "medreason") as [->|N1]; [|
  destruct (String.eqb_spec model_type "whisper") as [->|N2]; [|
  destruct (String.eqb_spec model_type "nllb") as [->|N3]; [|
  destruct (String.eqb_spec model_type "medgemma") as [->|N4]]]].
  4: { left. split; [reflexivity|]. unfold check_medgemma_model in H.
       destruct (health_post _ _ PMedGemma) as [code body text|e]; [|discriminate H].
       destruct (Z.eqb_spec code 200) as [->|]; [eauto|discriminate H]. }
  4: discriminate H.
  1: destruct (health_post url token PMedReason) as [code body text|e] eqn:Ep;
       [right; exists PMedReason, code, body, text|discriminate H].
  2: destruct (health_post url token PWhisper) as [code body text|e] eqn:Ep;
       [right; exists PWhisper, code, body, text|discriminate H].
  3: destruct (health_post url token PNllb) as [code body text|e] eqn:Ep;
       [right; exists PNllb, code, body, text|discriminate H].
  all: split; [cbn; tauto|split; [exact Ep|]].
  all: destruct (Z.eqb_spec code 200) as [E200|N200]; [left; exact E200|right].
  all: destruct (Z.eqb_spec code 400) as [E400|N400];
    [|rewrite ?andb_false_r in H; discriminate H].
  all: subst code; simpl in H; first [discriminate H | split; reflexivity].
Qed.

Lemma check_model_available_witness :
  ("whisper" = "medgemma" /\
   exists body text,
     UiSamples.health_whisper_400 ("http://wh" ++ "/v1/chat/completions") "t" PMedGemma
     = HttpResp 200 body text) \/
  (exists p code body text,
     In ("whisper", p) [("medreason", PMedReason); ("whisper", PWhisper); ("nllb", PNllb)] /\
     UiSamples.health_whisper_400 "http://wh" "t" p = HttpResp code body text /\
     (code = 200%Z \/ ("whisper" = "whisper" /\ code = 400%Z))).
Proof.
  apply check_model_available. reflexivity.
Defined.

(** X12: a configuration file holding a JSON object is loaded as that object
    followed by the default entries of the services it lacks, in the order
    of [DEFAULTS]; every service is then present and the file's own entries
    are unchanged. *)
Theorem load_config_merges_defaults (getenv : string -> string)
  (json_load : string -> err + jvalue) (text : string) (kv : list (string * jvalue))
  (H : json_load text = inr (JObj kv)) :
  load_config getenv json_load (Present (inr text))
  = JObj (kv ++ filter (fun p => negb (has_key kv (fst p))) (DEFAULTS getenv)) /\
  (forall k, In k ["medreason"; "whisper"; "nllb"; "medgemma"] ->
     has_key (kv ++ filter (fun p => negb (has_key kv (fst p))) (DEFAULTS getenv)) k = true) /\
  (forall k d, has_key kv k = true ->
     jget (kv ++ filter (fun p => negb (has_key kv (fst p))) (DEFAULTS getenv)) k d = jget kv k d).
Proof.
  split; [|split].
  - unfold load_config. rewrite H, UiFacts3.merge_defaults_obj
      by apply UiFacts3.DEFAULTS_nodup. reflexivity.
  - intros k Hk. rewrite UiFacts3.has_key_app.
    destruct (has_key kv k) eqn:E; [reflexivity|]. cbn [orb].
    unfold has_key at 1. apply existsb_exists. exists (k, jget (DEFAULTS getenv) k JNull).
    split; [|apply String.eqb_refl]. apply filter_In.
    cbn in Hk. repeat destruct Hk as [<-|Hk]; try destruct Hk;
      (split; [cbn; tauto | cbn [fst]; rewrite E; reflexivity]).
  - intros k d Hk. apply UiFacts3.jget_app_left, UiFacts3.has_key_filter_false, Hk.
Qed.

Lemma load_config_merges_defaults_witness :
  load_config UiSamples.getenv_unset UiSamples.load_nllb_only
    (Present (inr UiSamples.config_nllb_text))
  = JObj [("nllb", service_entry "http://nllb" "t"); ("medreason", service_entry "" "");
          ("whisper", service_entry "" ""); ("medgemma", service_entry "" "")].
Proof.
  rewrite (proj1 (load_config_merges_defaults UiSamples.getenv_unset UiSamples.load_nllb_only
                    UiSamples.config_nllb_text _ eq_refl)).
  reflexivity.
Defined.

(** X13: [load_config] returns [DEFAULTS] when the file is missing, cannot be
    read, is not valid JSON, or holds [null], a number or a boolean. *)
Theorem load_config_defaults (getenv : string -> string)
  (json_load : string -> err + jvalue) (fs : file_state)
  (H : fs = Missing \/ (exists e, fs = Present (inl e)) \/
       (exists text e, fs = Present (inr text) /\ json_load text = inl e) \/
       (exists text v, fs = Present (inr text) /\ json_load text = inr v /\
          (v = JNull \/ (exists n, v = JNum n) \/ (exists b, v = JBool b)))) :
  load_config getenv json_load fs = JObj (DEFAULTS getenv).
Proof.
  unfold load_config.
  destruct H as [->|[[e ->]|[(text & e & -> & E)|(text & v & -> & E & Hv)]]];
    [reflexivity|reflexivity|rewrite E; reflexivity|].
  rewrite E. destruct Hv as [->|[[n ->]|[b ->]]]; reflexivity.
Qed.

Lemma load_config_defaults_witness :
  load_config UiSamples.getenv_unset UiSamples.load_invalid (Present (inr "api_config"))
  = JObj (DEFAULTS UiSamples.getenv_unset).
Proof.
  apply load_config_defaults. right. right. left. eexists _, _. split; reflexivity.
Defined.

(** X14: a configuration file holding a JSON string (or list) is returned
    as is when each service name is a substring (or element) of it, and
    [DEFAULTS] is returned otherwise. *)
Theorem load_config_string_or_list (getenv : string -> string)
  (json_load : string -> err + jvalue) (text : string) (v : jvalue)
  (H : json_load text = inr v) :
  (forall s, v = JStr s ->
     load_config getenv json_load (Present (inr text))
     = if forallb (fun k => Py.contains k s) ["medreason"; "whisper"; "nllb"; "medgemma"]
       then JStr s else JObj (DEFAULTS getenv)) /\
  (forall l, v = JArr l ->
     load_config getenv json_load (Present (inr text))
     = if forallb (fun k => existsb (fun x => match x with JStr s => String.eqb s k | _ => false end) l)
                  ["medreason"; "whisper"; "nllb"; "medgemma"]
       then JArr l else JObj (DEFAULTS getenv)).
Proof.
  unfold load_config. rewrite H. split; intros ? ->.
  - cbn [DEFAULTS merge_defaults py_in ebind forallb].
    destruct (Py.contains "medreason" s), (Py.contains "whisper" s),
             (Py.contains "nllb" s), (Py.contains "medgemma" s); reflexivity.
  - cbn [DEFAULTS merge_defaults py_in ebind forallb].
    set (f := fun x => match x with JStr s => String.eqb s _ | _ => false end).
    destruct (existsb _ l), (existsb _ l), (existsb _ l), (existsb _ l); reflexivity.
Qed.

Lemma load_config_string_or_list_witness :
  load_config UiSamples.getenv_unset UiSamples.load_string (Present (inr "api_config"))
  = JObj (DEFAULTS UiSamples.getenv_unset).
Proof.
  rewrite (proj1 (load_config_string_or_list UiSamples.getenv_unset UiSamples.load_string
                    "api_config" _ eq_refl) _ eq_refl).
  vm_compute. reflexivity.
Defined.

(** X15: when [json.load] reads back what [json.dump] wrote, saving the
    settings-tab configuration reports success and loading then returns
    that configuration unchanged. *)
Theorem config_round_trip (getenv : string -> string)
  (json_load : string -> err + jvalue) (json_dump : jvalue -> string) (fs : file_state)
  (medreason_url medreason_token whisper_url whisper_token nllb_url nllb_token
   medgemma_url medgemma_token : string)
  (H : json_load (json_dump (config_of medreason_url medreason_token whisper_url whisper_token
                   nllb_url nllb_token medgemma_url medgemma_token))
       = inr (config_of medreason_url medreason_token whisper_url whisper_token
                nllb_url nllb_token medgemma_url medgemma_token)) :
  snd (save_config json_dump fs None (config_of medreason_url medreason_token whisper_url
         whisper_token nllb_url nllb_token medgemma_url medgemma_token))
  = "Configuration saved successfully" /\
  load_config getenv json_load
    (fst (save_config json_dump fs None (config_of medreason_url medreason_token whisper_url
            whisper_token nllb_url nllb_token medgemma_url medgemma_token)))
  = config_of medreason_url medreason_token whisper_url whisper_token
      nllb_url nllb_token medgemma_url medgemma_token.
Proof.
  split; [reflexivity|]. cbn [save_config fst]. unfold load_config. rewrite H.
  reflexivity.
Qed.

Lemma config_round_trip_witness :
  snd (save_config UiSamples.dump_sample Missing None UiSamples.sample_config)
  = "Configuration saved successfully" /\
  load_config UiSamples.getenv_unset UiSamples.load_sample
    (fst (save_config UiSamples.dump_sample Missing None UiSamples.sample_config))
  = UiSamples.sample_config.
Proof.
  apply (config_round_trip UiSamples.getenv_unset UiSamples.load_sample UiSamples.dump_sample
           Missing "http://mr" "a" "http://wh" "b" "http://nl" "c" "http://mg" "d").
  reflexivity.
Defined.

(** X16: for a string model response, the JSON extraction of
    [diagnose_doctor_notes] is the function [Sections.json_output] the
    extraction claims are stated about. *)
Theorem json_output_of_string (json_loads : string -> result jvalue)
  (json_dumps_indent2 : jvalue -> string) (raw_response : string) :
  json_output_of json_loads json_dumps_indent2 (JStr raw_response)
  = Sections.json_output jvalue (loads_opt json_loads) json_dumps_indent2 raw_response.
Proof.
  unfold json_output_of, json_extraction, Sections.json_output, Sections.find_json_span,
    Sections.after_marker.
  cbn [py_in ebind as_str].
  destruct (Py.contains Sections.TS raw_response); cbn [ebind py_in as_str];
    [|destruct (Py.contains Sections.FA raw_response); cbn [ebind py_in as_str]];
    match goal with
    | |- context [Py.contains "{" ?a] =>
        destruct (Py.contains "{" a), (Py.contains "}" a); cbn [andb]; try reflexivity;
        destruct (Py.find_char "{" a) as [start|]; [|reflexivity];
        destruct (Sections.scan_close _ 0 0) as [k|]; [|reflexivity];
        destruct (loads_opt json_loads _); reflexivity
    end.
Qed.

(** X17: for a model response that is not a string, the JSON extraction
    never decodes or prints JSON: its output is ["No JSON found in
    response"] or starts with ["Error extracting JSON: "]. *)
Theorem json_output_non_string (json_loads json_loads' : string -> result jvalue)
  (json_dumps_indent2 json_dumps_indent2' : jvalue -> string) (raw_response : jvalue)
  (H : forall s, raw_response <> JStr s) :
  json_output_of json_loads json_dumps_indent2 raw_response
  = json_output_of json_loads' json_dumps_indent2' raw_response /\
  (json_output_of json_loads json_dumps_indent2 raw_response = "No JSON found in response" \/
   exists m, json_output_of json_loads json_dumps_indent2 raw_response
             = "Error extracting JSON: " ++ m).
Proof.
  unfold json_output_of, json_extraction.
  destruct raw_response as [| | |s|l|kv]; [| | |contradiction (H s); reflexivity| |];
    cbn [py_in ebind as_str]; try (split; [reflexivity|right; eexists; reflexivity]).
  all: repeat first
      [ progress cbn [ebind py_in as_str]
      | match goal with |- context [if ?b then _ else _] => destruct b end ];
    split; try reflexivity; first [left; reflexivity | right; eexists; reflexivity].
Qed.

Lemma json_output_non_string_witness :
  json_output_of Samples.sample_loads (fun _ => "{}") (JObj [("{", JNull); ("}", JNull)])
  = json_output_of (fun _ => Raise (JSONDecodeError "Expecting value")) (fun _ => "")
      (JObj [("{", JNull); ("}", JNull)]) /\
  (json_output_of Samples.sample_loads (fun _ => "{}") (JObj [("{", JNull); ("}", JNull)])
   = "No JSON found in response" \/
   exists m, json_output_of Samples.sample_loads (fun _ => "{}") (JObj [("{", JNull); ("}", JNull)])
             = "Error extracting JSON: " ++ m).
Proof.
  apply json_output_non_string. intros s. discriminate.
Defined.

(** X18: [diagnose_doctor_notes] reports ["Analysis complete."] only for a
    non-blank transcription whose MedReason request answered 200 with a
    body the completion formats accept; the raw response is that body's
    text and the JSON output is extracted from it. *)
Theorem diagnose_success_source (medreason_post : string -> http_outcome)
  (json_loads : string -> result jvalue) (json_dumps_indent2 : jvalue -> string)
  (transcription : string)
  (H : snd (diagnose_doctor_notes medreason_post json_loads json_dumps_indent2 transcription)
       = "Analysis complete.") :
  Py.strip transcription <> "" /\
  exists body text raw_response,
    medreason_post transcription = HttpResp 200 (inr body) text /\
    response_text_of json_dumps_indent2 body = inr raw_response /\
    diagnose_doctor_notes medreason_post json_loads json_dumps_indent2 transcription
    = (raw_response, json_output_of json_loads json_dumps_indent2 raw_response,
       "Analysis complete.").
Proof.
  unfold diagnose_doctor_notes in *.
  destruct (String.eqb transcription "" || String.eqb (Py.strip transcription) "") eqn:Eb;
    [discriminate H|].
  apply orb_false_iff in Eb as [_ Eb]. apply String.eqb_neq in Eb. split; [exact Eb|].
  destruct (medreason_post transcription) as [code body text|e]; [|discriminate H].
  destruct (Z.eqb_spec code 200) as [->|]; [|discriminate H].
  destruct body as [e|body]; cbn [ebind] in *; [discriminate H|].
  destruct (response_text_of json_dumps_indent2 body) as [e|raw] eqn:Er; [discriminate H|].
  exists body, text, raw. auto.
Qed.

Lemma diagnose_success_source_witness :
  Py.strip "Patient reports fever" <> "" /\
  exists body text raw_response,
    UiSamples.medreason_ok "Patient reports fever" = HttpResp 200 (inr body) text /\
    response_text_of (fun _ => "{}") body = inr raw_response /\
    diagnose_doctor_notes UiSamples.medreason_ok Samples.sample_loads (fun _ => "{}")
      "Patient reports fever"
    = (raw_response, json_output_of Samples.sample_loads (fun _ => "{}") raw_response,
       "Analysis complete.").
Proof.
  apply diagnose_success_source. vm_compute. reflexivity.
Defined.
